(** * IsoQuant [src/file_parsers.py]: FASTA access layer

    A shallow embedding of the FASTA half of [file_parsers.py]: the eccLib
    capability probe run at module import, the two reader adapters
    ([PyfaidxReader], [EccLibFASTAReader]), the [EccLibChromosomeRecord]
    view and the factory functions, followed by the properties of the
    sequence-access contract.

    Python values are modelled as follows: [str] is [string], [int] is [Z],
    [None]-able arguments are [option], a [dict] keyed by chromosome id is
    [gmap string _], and a call that may raise returns a [result].  Object
    state (the reader's attributes) is threaded explicitly; log lines and
    calls into the two external engines are recorded as a list of [event]s. *)

From Stdlib Require Import ZArith String Ascii List Bool Lia.
From stdpp Require Import base gmap strings list fin_maps.

Local Open Scope Z_scope.

(* ===================================================================== *)
(** * Python runtime: exceptions, [str] slicing and indexing              *)
(* ===================================================================== *)

(** Exception classes that occur in the module.  All of them derive from
    [Exception]; [ModuleNotFoundError] derives from [ImportError].
    [OtherException] stands for any further [Exception] subclass raised by
    an external engine (for instance [OSError] or pyfaidx's [FetchError]). *)
Inductive exn_class : Type :=
  | ImportError
  | ModuleNotFoundError
  | KeyError
  | IndexError
  | TypeError
  | OtherException (name : string).

Record exn : Type := Exn { exn_type : exn_class; exn_msg : string }.

(** [isinstance(e, ImportError)], the test made by [except ImportError]. *)
Definition is_ImportError (e : exn) : bool :=
  match exn_type e with
  | ImportError | ModuleNotFoundError => true
  | _ => false
  end.

Inductive result (A : Type) : Type :=
  | Ok (a : A)
  | Raise (e : exn).
Arguments Ok {A} a.
Arguments Raise {A} e.

Definition bind {A B : Type} (r : result A) (k : A -> result B) : result B :=
  match r with
  | Ok a => k a
  | Raise e => Raise e
  end.

Definition result_map {A B : Type} (f : A -> B) (r : result A) : result B :=
  bind r (fun a => Ok (f a)).

(** [len(s)] *)
Definition len (s : string) : Z := Z.of_nat (String.length s).

(** Normalisation of one slice bound against a sequence of length [n], as
    done by CPython for a slice of step 1: a negative bound counts from
    the end, and every bound is clamped to [0, n]. *)
Definition adjust_index (n i : Z) : Z :=
  if i <? 0 then Z.max (i + n) 0 else Z.min i n.

(** [s[start:stop]] on a [str]; [None] stands for an omitted bound. *)
Definition str_slice (s : string) (start stop : option Z) : string :=
  let n := len s in
  let lo := match start with None => 0 | Some i => adjust_index n i end in
  let hi := match stop with None => n | Some i => adjust_index n i end in
  substring (Z.to_nat lo) (Z.to_nat (hi - lo)) s.

(** Every [step]-th character of [s], starting after [skip] characters. *)
Fixpoint stride_from (skip step : nat) (s : string) : string :=
  match s with
  | EmptyString => EmptyString
  | String c s' =>
      match skip with
      | O => String c (stride_from (step - 1) step s')
      | S k => stride_from k step s'
      end
  end.

(** [s[start:stop:step]] on a [str], for a positive [step]. *)
Definition str_slice_step (s : string) (start stop : option Z) (step : positive) : string :=
  stride_from 0 (Pos.to_nat step) (str_slice s start stop).

(** [s[i]] on a [str]: a one-character string, or [IndexError]. *)
Definition str_getitem (s : string) (i : Z) : result string :=
  let n := len s in
  let j := if i <? 0 then i + n else i in
  if (j <? 0) || (n <=? j)
  then Raise (Exn IndexError "string index out of range")
  else Ok (substring (Z.to_nat j) 1 s).

(** [None[...]] *)
Definition NoneType_not_subscriptable : exn :=
  Exn TypeError "'NoneType' object is not subscriptable".

(** [d[k]] on a [dict]. *)
Definition dict_getitem {V : Type} (d : gmap string V) (k : string) : result V :=
  match d !! k with
  | Some v => Ok v
  | None => Raise (Exn KeyError k)
  end.

(** [d.keys()], in the dictionary's iteration order. *)
Definition dict_keys {V : Type} (d : gmap string V) : list string :=
  (map_to_list d).*1.

(* ===================================================================== *)
(** * Observable effects                                                  *)
(* ===================================================================== *)

(** What a call leaves behind outside the reader object: lines sent to the
    [IsoQuant] logger and calls into the external engines. *)
Inductive event : Type :=
  | LogInfo (msg : string)
  | LogWarning (msg : string)
  | ImportModule (name : string)
  | Hasattr (attr : string)
  | CallParseFASTA (fasta_path : string)
  | CallFasta (fasta_path : string) (indexname : option string).

(** The events that open or parse a reference file. *)
Definition is_engine_call (ev : event) : bool :=
  match ev with
  | CallParseFASTA _ | CallFasta _ _ => true
  | _ => false
  end.

Definition is_warning (ev : event) : bool :=
  match ev with LogWarning _ => true | _ => false end.

(* ===================================================================== *)
(** * The capability probe (module level, lines 31-51)                    *)
(* ===================================================================== *)

(** The module object bound by a successful [import eccLib]; all the probe
    asks of it is [hasattr], which may itself raise when the module's
    attribute lookup misbehaves. *)
Record EccLibModule : Type := { hasattr : string -> result bool }.

(** The platform as the probe sees it: what [import eccLib] does. *)
Definition Platform : Type := result EccLibModule.

Record ProbeState : Type :=
  { ECCLIB_AVAILABLE : bool;
    ECCLIB_WORKING : bool }.

(** [hasattr(eccLib, 'parseFASTA') and hasattr(eccLib, 'parseGTF')], with
    the short circuit of [and]. *)
Definition sanity_check (eccLib : EccLibModule) : result bool :=
  match hasattr eccLib "parseFASTA" with
  | Raise e => Raise e
  | Ok false => Ok false
  | Ok true => hasattr eccLib "parseGTF"
  end.

(** Events of the sanity check. *)
Definition sanity_check_events (eccLib : EccLibModule) : list event :=
  match hasattr eccLib "parseFASTA" with
  | Ok true => [Hasattr "parseFASTA"; Hasattr "parseGTF"]
  | _ => [Hasattr "parseFASTA"]
  end.

(** The module-level statements of lines 31-46, run once when
    [file_parsers] is imported.  The result is the pair of module globals,
    or the exception that escapes the module body. *)
Definition module_init (import_eccLib : Platform) : result ProbeState * list event :=
  let g := {| ECCLIB_AVAILABLE := false; ECCLIB_WORKING := false |} in
  match import_eccLib with
  | Ok eccLib =>
      let g := {| ECCLIB_AVAILABLE := true; ECCLIB_WORKING := ECCLIB_WORKING g |} in
      let g :=
        match sanity_check eccLib with
        | Ok true => {| ECCLIB_AVAILABLE := ECCLIB_AVAILABLE g; ECCLIB_WORKING := true |}
        | Ok false => g
        | Raise _ (* except Exception *) =>
            {| ECCLIB_AVAILABLE := ECCLIB_AVAILABLE g; ECCLIB_WORKING := false |}
        end in
      (Ok g, ImportModule "eccLib" :: sanity_check_events eccLib)
  | Raise e =>
      if is_ImportError e
      then (* except ImportError: pass *) (Ok g, [ImportModule "eccLib"])
      else (Raise e, [ImportModule "eccLib"])
  end.

(** [is_ecclib_available()]: reads the two globals. *)
Definition is_ecclib_available (g : ProbeState) : bool :=
  ECCLIB_AVAILABLE g && ECCLIB_WORKING g.

(** A call of [is_ecclib_available()] as a step of the process: the value
    returned, the globals afterwards and the events emitted. *)
Definition call_is_ecclib_available (g : ProbeState) : bool * ProbeState * list event :=
  (is_ecclib_available g, g, []).

(** [n] successive calls: the values returned, the final globals and all
    events emitted. *)
Fixpoint call_is_ecclib_available_n (n : nat) (g : ProbeState)
  : list bool * ProbeState * list event :=
  match n with
  | O => ([], g, [])
  | S n' =>
      let '(b, g1, ev1) := call_is_ecclib_available g in
      let '(bs, g2, ev2) := call_is_ecclib_available_n n' g1 in
      (b :: bs, g2, ev1 ++ ev2)
  end.

(** The probe end to end: import the module on a platform, then ask. *)
Definition probe (p : Platform) : result bool :=
  result_map is_ecclib_available (fst (module_init p)).

(** Number of availability checks (imports of the backend) in a trace. *)
Definition count_checks (evs : list event) : nat :=
  List.length (List.filter (fun ev => match ev with ImportModule _ => true | _ => false end) evs).

(* ===================================================================== *)
(** * The external engines                                                *)
(* ===================================================================== *)

(** eccLib as the adapter uses it: [parseFASTA(path)] parses the whole file
    into a dictionary from chromosome id to a record object, and
    [record.dump()] decodes a record to its full sequence.  [dump] is
    taken to return: what follows says nothing of a record whose decoding
    raises, so statements about a loaded reader are about a [load] in which
    every record decoded. *)
Class EccLibEngine : Type :=
  { EccRecord : Type;
    parseFASTA : string -> result (gmap string EccRecord);
    dump : EccRecord -> string }.

(** pyfaidx as the adapter uses it: [Fasta(path, indexname=...)] opens an
    indexed file, [fasta[chr_id]] yields a record, [fasta.keys()] the ids,
    [str(record[a:b])] the text of a region and [len(record)] its length.
    [record_str] is [str(record)], the record's full sequence. *)
Class PyfaidxEngine : Type :=
  { FastaFile : Type;
    FastaRecord : Type;
    Fasta : string -> option string -> result FastaFile;
    fasta_getitem : FastaFile -> string -> result FastaRecord;
    fasta_keys : FastaFile -> list string;
    record_slice : FastaRecord -> option Z -> option Z -> result string;
    record_len : FastaRecord -> Z;
    record_str : FastaRecord -> string }.

(** For the slice [rec[start:stop]] the indexed engine returns the region
    [start, stop) of [seq], character for character. *)
Definition exposes_region {E : PyfaidxEngine} (rec : FastaRecord) (seq : string)
           (start stop : Z) : Prop :=
  record_slice rec (Some start) (Some stop)
    = Ok (substring (Z.to_nat start) (Z.to_nat (stop - start)) seq).

(** The indexed engine exposes [seq] as the sequence of record [rec]: it
    reports the length of [seq] and exposes every region
    [0 <= start <= stop <= len(seq)] of it.  Nothing is asked of bounds
    that are negative, reversed or beyond the record. *)
Definition same_sequence {E : PyfaidxEngine} (rec : FastaRecord) (seq : string) : Prop :=
  record_len rec = len seq /\
  forall start stop : Z,
    0 <= start <= stop -> stop <= len seq -> exposes_region rec seq start stop.

(* ===================================================================== *)
(** * class PyfaidxReader (lines 107-147)                                 *)
(* ===================================================================== *)

Module PyfaidxReader.
Section methods.
Context {E : PyfaidxEngine}.

(** The instance attribute [self.fasta]; [self._Fasta] is the engine's
    constructor [Fasta]. *)
Record t : Type := { fasta : option FastaFile }.

(** [__init__]: [from pyfaidx import Fasta] (a hard dependency of the
    package, taken to succeed), [self.fasta = None]. *)
Definition __init__ : t := {| fasta := None |}.

(** Truth value of the optional [index_path] in [if index_path:]. *)
Definition truthy (index_path : option string) : bool :=
  match index_path with
  | None => false
  | Some p => negb (String.eqb p "")
  end.

Definition load (self : t) (fasta_path : string) (index_path : option string)
  : result unit * t * list event :=
  if truthy index_path then
    match Fasta fasta_path index_path with
    | Ok f => (Ok tt, {| fasta := Some f |}, [CallFasta fasta_path index_path])
    | Raise e => (Raise e, self, [CallFasta fasta_path index_path])
    end
  else
    match Fasta fasta_path None with
    | Ok f => (Ok tt, {| fasta := Some f |}, [CallFasta fasta_path None])
    | Raise e => (Raise e, self, [CallFasta fasta_path None])
    end.

(** [self.fasta[chr_id]] *)
Definition fasta_record (self : t) (chr_id : string) : result FastaRecord :=
  match fasta self with
  | None => Raise NoneType_not_subscriptable
  | Some f => fasta_getitem f chr_id
  end.

Definition get_sequence (self : t) (chr_id : string) (start end_ : option Z)
  : result string :=
  match start, end_ with
  | None, None =>
      bind (fasta_record self chr_id) (fun rec => record_slice rec None None)
  | Some s, Some e =>
      bind (fasta_record self chr_id) (fun rec => record_slice rec (Some s) (Some e))
  | Some s, None =>
      bind (fasta_record self chr_id) (fun rec => record_slice rec (Some s) None)
  | None, Some e =>
      bind (fasta_record self chr_id) (fun rec => record_slice rec None (Some e))
  end.

Definition get_chromosome_record (self : t) (chr_id : string) : result FastaRecord :=
  fasta_record self chr_id.

Definition get_chromosome_ids (self : t) : result (list string) :=
  match fasta self with
  | None => Raise (Exn (OtherException "AttributeError")
                       "'NoneType' object has no attribute 'keys'")
  | Some f => Ok (fasta_keys f)
  end.

Definition get_chromosome_length (self : t) (chr_id : string) : result Z :=
  bind (fasta_record self chr_id) (fun rec => Ok (record_len rec)).

(** The index path [load] hands to the engine: none when [index_path]
    is [None] or empty.  Used to state properties. *)
Definition indexname (index_path : option string) : option string :=
  if truthy index_path then index_path else None.

End methods.
End PyfaidxReader.

(* ===================================================================== *)
(** * class EccLibFASTAReader (lines 150-219)                             *)
(* ===================================================================== *)

Module EccLibFASTAReader.
Section methods.
Context {E : EccLibEngine}.

(** The instance attributes [self.fasta_data] and [self._sequence_cache];
    [self._ecclib] is the engine. *)
Record t : Type :=
  { fasta_data : option (gmap string EccRecord);
    _sequence_cache : gmap string string }.

(** [__init__]: [import eccLib] (already imported by the probe whenever
    the factory gets here), no data, empty cache. *)
Definition __init__ : t := {| fasta_data := None; _sequence_cache := ∅ |}.

(** The loop of [load]:
    [for chr_id in keys: cache[chr_id] = data[chr_id].dump()].
    An exception leaves the entries written so far in place. *)
Fixpoint precache (data : gmap string EccRecord) (keys : list string)
         (cache : gmap string string) : result unit * gmap string string :=
  match keys with
  | [] => (Ok tt, cache)
  | chr_id :: keys' =>
      match dict_getitem data chr_id with
      | Raise e => (Raise e, cache)
      | Ok rec => precache data keys' (<[chr_id := dump rec]> cache)
      end
  end.

Definition parse_failed (e : exn) : event :=
  LogWarning ("eccLib FASTA parsing failed: " +:+ exn_msg e).

(** [load]: [index_path] is accepted and ignored. *)
Definition load (self : t) (fasta_path : string) (index_path : option string)
  : result unit * t * list event :=
  match parseFASTA fasta_path with
  | Raise e =>
      (Raise e, self, [CallParseFASTA fasta_path; parse_failed e])
  | Ok data =>
      match precache data (dict_keys data) (_sequence_cache self) with
      | (Ok _, cache) =>
          (Ok tt, {| fasta_data := Some data; _sequence_cache := cache |},
           [CallParseFASTA fasta_path])
      | (Raise e, cache) =>
          (Raise e, {| fasta_data := Some data; _sequence_cache := cache |},
           [CallParseFASTA fasta_path; parse_failed e])
      end
  end.

(** [self.fasta_data[chr_id].dump()] *)
Definition dump_from_data (self : t) (chr_id : string) : result string :=
  match fasta_data self with
  | None => Raise NoneType_not_subscriptable
  | Some data => bind (dict_getitem data chr_id) (fun rec => Ok (dump rec))
  end.

Definition get_sequence (self : t) (chr_id : string) (start end_ : option Z)
  : result string * t :=
  let fetched :=
    match _sequence_cache self !! chr_id with
    | Some seq => (Ok seq, self)
    | None =>
        match dump_from_data self chr_id with
        | Raise e => (Raise e, self)
        | Ok seq =>
            (Ok seq, {| fasta_data := fasta_data self;
                        _sequence_cache := <[chr_id := seq]> (_sequence_cache self) |})
        end
    end in
  match fetched with
  | (Raise e, self') => (Raise e, self')
  | (Ok seq, self') =>
      match start, end_ with
      | None, None => (Ok seq, self')
      | Some s, Some e => (Ok (str_slice seq (Some s) (Some e)), self')
      | Some s, None => (Ok (str_slice seq (Some s) None), self')
      | None, Some e => (Ok (str_slice seq None (Some e)), self')
      end
  end.

Definition get_chromosome_ids (self : t) : result (list string) :=
  match fasta_data self with
  | None => Raise (Exn (OtherException "AttributeError")
                       "'NoneType' object has no attribute 'keys'")
  | Some data => Ok (dict_keys data)
  end.

Definition get_chromosome_length (self : t) (chr_id : string) : result Z * t :=
  match _sequence_cache self !! chr_id with
  | Some seq => (Ok (len seq), self)
  | None =>
      match dump_from_data self chr_id with
      | Raise e => (Raise e, self)
      | Ok seq =>
          (Ok (len seq), {| fasta_data := fasta_data self;
                            _sequence_cache := <[chr_id := seq]> (_sequence_cache self) |})
      end
  end.

(** One public call made on a reader after construction. *)
Inductive step : t -> t -> Prop :=
  | step_load self fasta_path index_path :
      step self (load self fasta_path index_path).1.2
  | step_get_sequence self chr_id start end_ :
      step self (get_sequence self chr_id start end_).2
  | step_get_chromosome_length self chr_id :
      step self (get_chromosome_length self chr_id).2.

(** The states a reader object can be in: fresh from [__init__], or
    after any sequence of public calls. *)
Inductive reachable : t -> Prop :=
  | reachable_init : reachable __init__
  | reachable_step self self' : reachable self -> step self self' -> reachable self'.

(** Every cached sequence of a chromosome of the current data is that
    chromosome's decoded record. *)
Definition cache_sound (self : t) : Prop :=
  forall data chr_id rec seq,
    fasta_data self = Some data ->
    data !! chr_id = Some rec ->
    _sequence_cache self !! chr_id = Some seq ->
    seq = dump rec.

(** Every chromosome of the current data has a cache entry. *)
Definition cache_complete (self : t) : Prop :=
  forall data chr_id,
    fasta_data self = Some data ->
    is_Some (data !! chr_id) ->
    is_Some (_sequence_cache self !! chr_id).

(** The two definitions below are used to state properties; they name
    the lookup that [get_sequence] and [get_chromosome_length] share. *)

(** What a lookup answers from: the cache entry if there is one, the
    decoded record of the parsed data otherwise. *)
Definition full_sequence (self : t) (chr_id : string) : result string :=
  match _sequence_cache self !! chr_id with
  | Some seq => Ok seq
  | None => dump_from_data self chr_id
  end.

(** The state after a lookup that succeeded: the entry is in the cache. *)
Definition remember (self : t) (chr_id seq : string) : t :=
  {| fasta_data := fasta_data self;
     _sequence_cache := <[chr_id := seq]> (_sequence_cache self) |}.

End methods.
End EccLibFASTAReader.

(* ===================================================================== *)
(** * class EccLibChromosomeRecord (lines 222-250)                        *)
(* ===================================================================== *)

(** The argument of [record[key]]: a slice object, an [int] (which includes
    [bool]: [True] and [False] are the integers 1 and 0), or an object of
    any other type, of which only [type(key).__name__] matters. *)
Inductive key : Type :=
  | KeySlice (start stop step : option Z)
  | KeyInt (i : Z)
  | KeyOther (type_name : string).

Module EccLibChromosomeRecord.
Section methods.
Context {E : EccLibEngine}.

(** [self._chr_id].  [self._reader] is a reference to the reader object,
    not a copy: the reader's state is the store every method below takes
    and gives back. *)
Record t : Type := { _chr_id : string }.

Definition __init__ (chr_id : string) : t := {| _chr_id := chr_id |}.

Definition bad_key (type_name : string) : exn :=
  Exn TypeError ("indices must be integers or slices, not " +:+ type_name).

Definition __getitem__ (self : t) (k : key) (reader : EccLibFASTAReader.t)
  : result string * EccLibFASTAReader.t :=
  match k with
  | KeySlice start stop _ =>
      EccLibFASTAReader.get_sequence reader (_chr_id self) start stop
  | KeyInt i =>
      match EccLibFASTAReader.get_sequence reader (_chr_id self) None None with
      | (Raise e, reader') => (Raise e, reader')
      | (Ok seq, reader') => (str_getitem seq i, reader')
      end
  | KeyOther type_name => (Raise (bad_key type_name), reader)
  end.

Definition __len__ (self : t) (reader : EccLibFASTAReader.t)
  : result Z * EccLibFASTAReader.t :=
  EccLibFASTAReader.get_chromosome_length reader (_chr_id self).

Definition __str__ (self : t) (reader : EccLibFASTAReader.t)
  : result string * EccLibFASTAReader.t :=
  EccLibFASTAReader.get_sequence reader (_chr_id self) None None.

End methods.
End EccLibChromosomeRecord.

(* ===================================================================== *)
(** * Factory functions (lines 253-293)                                   *)
(* ===================================================================== *)

Section factory.
Context {Py : PyfaidxEngine} {Ecc : EccLibEngine}.

(** A [FASTAReaderInterface] object is one of its two implementations. *)
Inductive FASTAReaderInterface : Type :=
  | IsPyfaidxReader (r : PyfaidxReader.t)
  | IsEccLibFASTAReader (r : EccLibFASTAReader.t).

(** [reader.load(fasta_path, index_path)], dispatched on the class. *)
Definition reader_load (reader : FASTAReaderInterface)
           (fasta_path : string) (index_path : option string)
  : result unit * FASTAReaderInterface * list event :=
  match reader with
  | IsPyfaidxReader r =>
      let '(res, r', evs) := PyfaidxReader.load r fasta_path index_path in
      (res, IsPyfaidxReader r', evs)
  | IsEccLibFASTAReader r =>
      let '(res, r', evs) := EccLibFASTAReader.load r fasta_path index_path in
      (res, IsEccLibFASTAReader r', evs)
  end.

Definition get_fasta_reader (g : ProbeState) (use_ecclib : bool)
  : FASTAReaderInterface * list event :=
  if use_ecclib then
    if is_ecclib_available g then
      (IsEccLibFASTAReader EccLibFASTAReader.__init__,
       [LogInfo "Using eccLib for FASTA access"])
    else
      if ECCLIB_AVAILABLE g then
        (IsPyfaidxReader PyfaidxReader.__init__,
         [LogWarning ("eccLib is installed but not working correctly on this platform, "
                      +:+ "falling back to pyfaidx")])
      else
        (IsPyfaidxReader PyfaidxReader.__init__,
         [LogWarning "eccLib requested but not installed, falling back to pyfaidx"])
  else
    (IsPyfaidxReader PyfaidxReader.__init__, []).

Definition create_fasta_reader (g : ProbeState) (fasta_path : string)
           (index_path : option string) (use_ecclib : bool)
  : result FASTAReaderInterface * list event :=
  let '(reader, evs1) := get_fasta_reader g use_ecclib in
  match reader_load reader fasta_path index_path with
  | (Ok _, reader', evs2) => (Ok reader', evs1 ++ evs2)
  | (Raise e, _, evs2) => (Raise e, evs1 ++ evs2)
  end.

Definition is_EccLibFASTAReader (reader : FASTAReaderInterface) : bool :=
  match reader with IsEccLibFASTAReader _ => true | IsPyfaidxReader _ => false end.

Definition is_PyfaidxReader (reader : FASTAReaderInterface) : bool :=
  match reader with IsPyfaidxReader _ => true | IsEccLibFASTAReader _ => false end.

(** The engine call a reader's [load] makes.  Used to state properties. *)
Definition engine_call_of (reader : FASTAReaderInterface)
           (fasta_path : string) (index_path : option string) : event :=
  match reader with
  | IsEccLibFASTAReader _ => CallParseFASTA fasta_path
  | IsPyfaidxReader _ => CallFasta fasta_path (PyfaidxReader.indexname index_path)
  end.

End factory.

(* ===================================================================== *)
(** * A concrete pair of engines                                          *)
(* ===================================================================== *)

(** The reference file of the scenarios, [ref.fa], with two records. *)
Definition ref_fa : gmap string string :=
  <["chr1" := "ACGTACGTAC"%string]> (<["chr2" := "GGCCA"%string]> ∅).

Definition no_such_file : exn :=
  Exn (OtherException "FileNotFoundError") "No such file or directory".

(** A whole-file engine whose records are the sequences themselves. *)
Definition toy_ecclib : EccLibEngine :=
  {| EccRecord := string;
     parseFASTA := fun path =>
       if String.eqb path "ref.fa" then Ok ref_fa else Raise no_such_file;
     dump := fun rec => rec |}.

(** An indexed engine over the same file, slicing as Python does. *)
Definition toy_pyfaidx : PyfaidxEngine :=
  {| FastaFile := gmap string string;
     FastaRecord := string;
     Fasta := fun path _ =>
       if String.eqb path "ref.fa" then Ok ref_fa else Raise no_such_file;
     fasta_getitem := fun f chr_id => dict_getitem f chr_id;
     fasta_keys := fun f => dict_keys f;
     record_slice := fun rec start stop => Ok (str_slice rec start stop);
     record_len := fun rec => len rec;
     record_str := fun rec => rec |}.

(** The reader obtained by [EccLibFASTAReader()] then [load("ref.fa")]. *)
Definition toy_loaded : @EccLibFASTAReader.t toy_ecclib :=
  (@EccLibFASTAReader.load toy_ecclib EccLibFASTAReader.__init__ "ref.fa" None).1.2.

(** A reader holding the parsed file with nothing cached. *)
Definition toy_uncached : @EccLibFASTAReader.t toy_ecclib :=
  @EccLibFASTAReader.Build_t toy_ecclib (Some ref_fa) ∅.

(** The reader obtained by [PyfaidxReader()] then [load("ref.fa")]. *)
Definition toy_py_loaded : @PyfaidxReader.t toy_pyfaidx :=
  (@PyfaidxReader.load toy_pyfaidx PyfaidxReader.__init__ "ref.fa" None).1.2.

(** A platform on which [import eccLib] fails with an exception that is not
    an [ImportError]. *)
Definition broken_platform : Platform :=
  Raise (Exn (OtherException "OSError") "cannot load native library").

(** A platform with a complete eccLib. *)
Definition good_platform : Platform :=
  Ok {| hasattr := fun _ => Ok true |}.

(* ===================================================================== *)
(** * Remaining methods and calls through the interface                   *)
(* ===================================================================== *)

Section interface.
Context {Py : PyfaidxEngine} {Ecc : EccLibEngine}.

(** [EccLibFASTAReader.get_chromosome_record] (lines 196-203): a view that
    refers to the reader; nothing is looked up yet. *)
Definition EccLibFASTAReader_get_chromosome_record
           (self : EccLibFASTAReader.t) (chr_id : string) : EccLibChromosomeRecord.t :=
  EccLibChromosomeRecord.__init__ chr_id.

(** [EccLibFASTAReader.keys] (lines 217-219): [self.fasta_data.keys()]. *)
Definition EccLibFASTAReader_keys (self : EccLibFASTAReader.t) : result (list string) :=
  match EccLibFASTAReader.fasta_data self with
  | None => Raise (Exn (OtherException "AttributeError")
                       "'NoneType' object has no attribute 'keys'")
  | Some data => Ok (dict_keys data)
  end.

(** [PyfaidxReader.keys] (lines 145-147): [self.fasta.keys()]. *)
Definition PyfaidxReader_keys (self : PyfaidxReader.t) : result (list string) :=
  match PyfaidxReader.fasta self with
  | None => Raise (Exn (OtherException "AttributeError")
                       "'NoneType' object has no attribute 'keys'")
  | Some f => Ok (fasta_keys f)
  end.

(** What [reader[chr_id]] evaluates to: pyfaidx's own record, or the
    adapter's view. *)
Inductive chromosome_record : Type :=
  | NativeRecord (rec : FastaRecord)
  | ViewRecord (view : EccLibChromosomeRecord.t).

(** [FASTAReaderInterface.__getitem__] (lines 102-104):
    [self.get_chromosome_record(chr_id)], dispatched on the class. *)
Definition reader_getitem (reader : FASTAReaderInterface) (chr_id : string)
  : result chromosome_record :=
  match reader with
  | IsPyfaidxReader r =>
      result_map NativeRecord (PyfaidxReader.get_chromosome_record r chr_id)
  | IsEccLibFASTAReader r =>
      Ok (ViewRecord (EccLibFASTAReader_get_chromosome_record r chr_id))
  end.

(** [reader.get_sequence(chr_id, start, end)], dispatched on the class. *)
Definition reader_get_sequence (reader : FASTAReaderInterface) (chr_id : string)
           (start end_ : option Z) : result string * FASTAReaderInterface :=
  match reader with
  | IsPyfaidxReader r => (PyfaidxReader.get_sequence r chr_id start end_, reader)
  | IsEccLibFASTAReader r =>
      let '(res, r') := EccLibFASTAReader.get_sequence r chr_id start end_ in
      (res, IsEccLibFASTAReader r')
  end.

(** [reader.get_chromosome_length(chr_id)], dispatched on the class. *)
Definition reader_get_chromosome_length (reader : FASTAReaderInterface)
           (chr_id : string) : result Z * FASTAReaderInterface :=
  match reader with
  | IsPyfaidxReader r => (PyfaidxReader.get_chromosome_length r chr_id, reader)
  | IsEccLibFASTAReader r =>
      let '(res, r') := EccLibFASTAReader.get_chromosome_length r chr_id in
      (res, IsEccLibFASTAReader r')
  end.

(** [reader.get_chromosome_ids()], dispatched on the class. *)
Definition reader_get_chromosome_ids (reader : FASTAReaderInterface)
  : result (list string) :=
  match reader with
  | IsPyfaidxReader r => PyfaidxReader.get_chromosome_ids r
  | IsEccLibFASTAReader r => EccLibFASTAReader.get_chromosome_ids r
  end.

End interface.

(** The slice bounds after normalisation against a sequence of length [n]. *)
Definition slice_lo (n : Z) (start : option Z) : Z :=
  match start with None => 0 | Some i => adjust_index n i end.

Definition slice_hi (n : Z) (stop : option Z) : Z :=
  match stop with None => n | Some i => adjust_index n i end.

(** Python's rule for one bound of [s[i:j]] on a sequence of length [n]
    (language reference, common sequence operations): a negative bound is
    taken relative to the end, and a bound that then lies outside [0, n]
    is replaced by the nearer end. *)
Definition python_bound (n i : Z) : Z :=
  Z.max 0 (Z.min n (if i <? 0 then i + n else i)).

(** [out] is [seq[start:stop]] by Python's rule, stated on the characters:
    an omitted [start] is 0 and an omitted [stop] is the length; [out] has
    [max(0, hi - lo)] characters and its [p]-th character is the
    [(lo + p)]-th of [seq]. *)
Definition python_slice_of (seq : string) (start stop : option Z) (out : string) : Prop :=
  let n := len seq in
  let lo := match start with None => 0 | Some i => python_bound n i end in
  let hi := match stop with None => n | Some j => python_bound n j end in
  len out = Z.max 0 (hi - lo) /\
  forall p : nat,
    Z.of_nat p < hi - lo -> String.get p out = String.get (Z.to_nat lo + p) seq.

Definition fetch_error : exn :=
  Exn (OtherException "FetchError") "Requested start coordinate must be greater than 0.".

(** An indexed engine over [ref.fa] that checks the start coordinate as
    pyfaidx does: a start that still lies before the record after counting
    from the end is refused with a [FetchError]; every other request is
    sliced as a [str]. *)
Definition strict_pyfaidx : PyfaidxEngine :=
  {| FastaFile := gmap string string;
     FastaRecord := string;
     Fasta := fun path _ =>
       if String.eqb path "ref.fa" then Ok ref_fa else Raise no_such_file;
     fasta_getitem := fun f chr_id => dict_getitem f chr_id;
     fasta_keys := fun f => dict_keys f;
     record_slice := fun rec start stop =>
       let first := match start with
                    | None => 0
                    | Some i => if i <? 0 then i + len rec else i
                    end in
       if first <? 0 then Raise fetch_error else Ok (str_slice rec start stop);
     record_len := fun rec => len rec;
     record_str := fun rec => rec |}.

(** The reader obtained by [PyfaidxReader()] then [load("ref.fa")] over
    that engine. *)
Definition strict_py_loaded : @PyfaidxReader.t strict_pyfaidx :=
  (@PyfaidxReader.load strict_pyfaidx PyfaidxReader.__init__ "ref.fa" None).1.2.

(** Two reference files with different chromosomes. *)
Definition first_fa : gmap string string :=
  <["chrA" := "AAAATTTT"%string]> (<["chrM" := "GATTACA"%string]> ∅).

Definition second_fa : gmap string string :=
  <["chrB" := "CCGG"%string]> (<["chrM" := "TTT"%string]> ∅).

(** A whole-file engine that knows both files. *)
Definition toy_two_files : EccLibEngine :=
  {| EccRecord := string;
     parseFASTA := fun path =>
       if String.eqb path "first.fa" then Ok first_fa
       else if String.eqb path "second.fa" then Ok second_fa
       else Raise no_such_file;
     dump := fun rec => rec |}.

(** The reader after [load("first.fa")] on a fresh object. *)
Definition toy_first_loaded : @EccLibFASTAReader.t toy_two_files :=
  (@EccLibFASTAReader.load toy_two_files EccLibFASTAReader.__init__ "first.fa" None).1.2.

(** A platform whose eccLib lacks [parseGTF]. *)
Definition partial_platform : Platform :=
  Ok {| hasattr := fun attr => Ok (String.eqb attr "parseFASTA") |}.

(** A platform whose eccLib raises on attribute lookup. *)
Definition raising_platform : Platform :=
  Ok {| hasattr := fun _ => Raise (Exn (OtherException "RuntimeError") "broken module") |}.

(** A platform without eccLib. *)
Definition bare_platform : Platform :=
  Raise (Exn ModuleNotFoundError "No module named 'eccLib'").

(* ===================================================================== *)
(** * Properties of [str] slicing                                         *)
(* ===================================================================== *)

Lemma substring_all (s : string) : substring 0 (String.length s) s = s.
Proof. induction s as [|c s IH]; simpl; [reflexivity | now rewrite IH]. Qed.

Lemma substring_length (s : string) (n m : nat) :
  String.length (substring n m s) = Nat.min m (String.length s - n).
Proof.
  revert n m. induction s as [|c s IH]; intros n m.
  - destruct n, m; reflexivity.
  - destruct n as [|n].
    + destruct m as [|m]; simpl; [reflexivity | now rewrite IH, Nat.sub_0_r].
    + simpl. apply IH.
Qed.

Lemma substring_one (s : string) (n : nat) (c : ascii) :
  String.get n s = Some c -> substring n 1 s = String c EmptyString.
Proof.
  revert n. induction s as [|a s IH]; intros n H.
  - destruct n; discriminate.
  - destruct n as [|n]; simpl in *.
    + injection H as ->. now destruct s.
    + now apply IH.
Qed.

Lemma get_in_range (s : string) (n : nat) :
  (n < String.length s)%nat -> exists c, String.get n s = Some c.
Proof.
  revert n. induction s as [|a s IH]; intros n H; simpl in *.
  - lia.
  - destruct n as [|n]; [now exists a | apply IH; lia].
Qed.

Lemma get_Some_lt (s : string) (n : nat) (c : ascii) :
  String.get n s = Some c -> (n < String.length s)%nat.
Proof.
  revert n. induction s as [|a s IH]; intros n H; simpl in *.
  - destruct n; discriminate.
  - destruct n as [|n]; [lia | apply IH in H; lia].
Qed.

(** [s[:]] is [s]. *)
Lemma str_slice_full (s : string) : str_slice s None None = s.
Proof.
  unfold str_slice, len. rewrite Z.sub_0_r, Nat2Z.id. apply substring_all.
Qed.

(** For bounds inside the sequence a slice is the plain substring. *)
Lemma str_slice_in_range (s : string) (a b : Z) :
  0 <= a <= b -> b <= len s ->
  str_slice s (Some a) (Some b) = substring (Z.to_nat a) (Z.to_nat (b - a)) s.
Proof.
  intros Hab Hb. unfold str_slice, adjust_index.
  destruct (Z.ltb_spec a 0); [lia|].
  destruct (Z.ltb_spec b 0); [lia|].
  now rewrite !Z.min_l by lia.
Qed.

Lemma str_slice_in_range_len (s : string) (a b : Z) :
  0 <= a <= b -> b <= len s ->
  len (str_slice s (Some a) (Some b)) = b - a.
Proof.
  intros Hab Hb. rewrite str_slice_in_range by assumption.
  unfold len in *. rewrite substring_length. lia.
Qed.

(** Indexing inside the sequence yields its character at that offset. *)
Lemma str_getitem_in_range (s : string) (i : Z) (c : ascii) :
  0 <= i -> String.get (Z.to_nat i) s = Some c ->
  str_getitem s i = Ok (String c EmptyString).
Proof.
  intros Hi Hc. unfold str_getitem. cbv zeta.
  assert (Hlt : i < len s).
  { apply get_Some_lt in Hc. unfold len. lia. }
  assert (H0 : (i <? 0) = false) by lia.
  assert (H1 : (len s <=? i) = false) by lia.
  rewrite !H0, H1. simpl.
  rewrite (substring_one s _ c Hc). reflexivity.
Qed.

(* ===================================================================== *)
(** * More on [str] slicing and indexing                                  *)
(* ===================================================================== *)

Lemma substring_empty (n m : nat) : substring n m EmptyString = EmptyString.
Proof. destruct n, m; reflexivity. Qed.

(** Two adjacent substrings make one. *)
Lemma substring_app (s : string) (n m1 m2 : nat) :
  substring n m1 s +:+ substring (n + m1) m2 s = substring n (m1 + m2) s.
Proof.
  revert n m1 m2. induction s as [|c s IH]; intros n m1 m2.
  - now rewrite !substring_empty.
  - destruct n as [|n]; simpl.
    + destruct m1 as [|m1]; simpl; [reflexivity|].
      rewrite <- (IH 0%nat m1 m2). reflexivity.
    + apply IH.
Qed.

Lemma len_nonneg (s : string) : 0 <= len s.
Proof. unfold len. lia. Qed.

Lemma adjust_index_range (n i : Z) : 0 <= n -> 0 <= adjust_index n i <= n.
Proof. intros Hn. unfold adjust_index. destruct (Z.ltb_spec i 0); lia. Qed.

Lemma slice_lo_range (n : Z) (start : option Z) : 0 <= n -> 0 <= slice_lo n start <= n.
Proof. intros Hn. destruct start; simpl; [now apply adjust_index_range | lia]. Qed.

Lemma slice_hi_range (n : Z) (stop : option Z) : 0 <= n -> 0 <= slice_hi n stop <= n.
Proof. intros Hn. destruct stop; simpl; [now apply adjust_index_range | lia]. Qed.

Lemma str_slice_unfold (s : string) (start stop : option Z) :
  str_slice s start stop =
    substring (Z.to_nat (slice_lo (len s) start))
              (Z.to_nat (slice_hi (len s) stop - slice_lo (len s) start)) s.
Proof. reflexivity. Qed.

(** The length of a slice, whatever the bounds. *)
Lemma str_slice_len (s : string) (start stop : option Z) :
  len (str_slice s start stop)
    = Z.max 0 (slice_hi (len s) stop - slice_lo (len s) start).
Proof.
  rewrite str_slice_unfold.
  pose proof (slice_lo_range (len s) start (len_nonneg s)) as Hlo.
  pose proof (slice_hi_range (len s) stop (len_nonneg s)) as Hhi.
  unfold len in *. rewrite substring_length. lia.
Qed.

(** [s[a:k] + s[k:b] = s[a:b]] when [k] falls between the two bounds. *)
Lemma str_slice_app (s : string) (start stop : option Z) (k : Z) :
  slice_lo (len s) start <= adjust_index (len s) k <= slice_hi (len s) stop ->
  str_slice s start (Some k) +:+ str_slice s (Some k) stop = str_slice s start stop.
Proof.
  intros Hk. rewrite !str_slice_unfold. simpl slice_lo. simpl slice_hi.
  pose proof (slice_lo_range (len s) start (len_nonneg s)) as Hlo.
  set (lo := slice_lo (len s) start) in *.
  set (mid := adjust_index (len s) k) in *.
  set (hi := slice_hi (len s) stop) in *.
  replace (Z.to_nat mid) with (Z.to_nat lo + Z.to_nat (mid - lo))%nat by lia.
  rewrite substring_app. f_equal. lia.
Qed.

(** [s[:k] + s[k:] = s] for every [k]. *)
Lemma str_slice_prefix_suffix (s : string) (k : Z) :
  str_slice s None (Some k) +:+ str_slice s (Some k) None = s.
Proof.
  rewrite str_slice_app, str_slice_full; [reflexivity|].
  simpl. apply adjust_index_range, len_nonneg.
Qed.

(** A negative bound inside the sequence is the bound counted from the end. *)
Lemma adjust_index_negative (n i : Z) :
  - n <= i < 0 -> adjust_index n i = adjust_index n (i + n).
Proof.
  intros Hi. unfold adjust_index.
  destruct (Z.ltb_spec i 0); [|lia]. destruct (Z.ltb_spec (i + n) 0); lia.
Qed.

(** A slice that covers the sequence is the sequence. *)
Lemma str_slice_cover (s : string) (start stop : option Z) :
  slice_lo (len s) start = 0 -> slice_hi (len s) stop = len s ->
  str_slice s start stop = s.
Proof.
  intros Hlo Hhi. rewrite str_slice_unfold, Hlo, Hhi.
  unfold len. rewrite Z.sub_0_r, Nat2Z.id. apply substring_all.
Qed.

(** Indexing inside the sequence is the slice of one character. *)
Lemma str_getitem_unit_slice (s : string) (i : Z) :
  0 <= i < len s -> str_getitem s i = Ok (str_slice s (Some i) (Some (i + 1))).
Proof.
  intros Hi. unfold str_getitem, str_slice, adjust_index. cbv zeta.
  assert (H0 : (i <? 0) = false) by lia.
  assert (H1 : (len s <=? i) = false) by lia.
  assert (H2 : (i + 1 <? 0) = false) by lia.
  rewrite !H0, H1, H2. simpl.
  rewrite !Z.min_l by lia. do 2 f_equal. lia.
Qed.

Lemma str_getitem_negative (s : string) (i : Z) :
  - len s <= i < 0 -> str_getitem s i = str_getitem s (i + len s).
Proof.
  intros Hi. unfold str_getitem. cbv zeta.
  assert (H0 : (i <? 0) = true) by lia.
  assert (H1 : (i + len s <? 0) = false) by lia.
  rewrite H0. cbv iota. rewrite !H1. reflexivity.
Qed.

Lemma str_getitem_out_of_range (s : string) (i : Z) :
  i < - len s \/ len s <= i ->
  str_getitem s i = Raise (Exn IndexError "string index out of range").
Proof.
  intros Hi. unfold str_getitem. cbv zeta.
  pose proof (len_nonneg s).
  destruct (Z.lt_ge_cases i 0) as [Hneg|Hpos].
  - assert (E0 : (i <? 0) = true) by lia.
    assert (E1 : (i + len s <? 0) = true) by lia.
    rewrite E0. cbv iota. rewrite E1. reflexivity.
  - assert (E1 : (i <? 0) = false) by lia.
    assert (E2 : (len s <=? i) = true) by lia.
    rewrite !E1. cbv iota. rewrite ?E1, E2. reflexivity.
Qed.

(** Indexing anywhere in [-len, len) yields one character, that at the
    offset counted modulo the length. *)
Lemma str_getitem_char (s : string) (i : Z) :
  - len s <= i < len s ->
  exists c, String.get (Z.to_nat (i mod len s)) s = Some c /\
            str_getitem s i = Ok (String c EmptyString).
Proof.
  intros Hi. destruct (Z.lt_ge_cases i 0) as [Hneg|Hpos].
  - rewrite str_getitem_negative by lia.
    replace (i mod len s) with (i + len s)
      by (apply Z.mod_unique with (q := -1); lia).
    destruct (get_in_range s (Z.to_nat (i + len s))) as [c Hc].
    { unfold len in *. lia. }
    exists c. split; [assumption|]. apply str_getitem_in_range; [lia | assumption].
  - rewrite Z.mod_small by lia.
    destruct (get_in_range s (Z.to_nat i)) as [c Hc].
    { unfold len in *. lia. }
    exists c. split; [assumption|]. apply str_getitem_in_range; [lia | assumption].
Qed.

(** The bound used by [str_slice] is Python's. *)
Lemma adjust_index_python_bound (n i : Z) :
  0 <= n -> adjust_index n i = python_bound n i.
Proof.
  intros Hn. unfold adjust_index, python_bound.
  destruct (Z.ltb_spec i 0); lia.
Qed.

(** [str_slice] computes the Python slice. *)
Lemma str_slice_python (seq : string) (start stop : option Z) :
  python_slice_of seq start stop (str_slice seq start stop).
Proof.
  unfold python_slice_of. cbv zeta.
  assert (Hlo : match start with None => 0 | Some i => python_bound (len seq) i end
                = slice_lo (len seq) start).
  { destruct start; simpl; [|reflexivity].
    symmetry. apply adjust_index_python_bound, len_nonneg. }
  assert (Hhi : match stop with None => len seq | Some j => python_bound (len seq) j end
                = slice_hi (len seq) stop).
  { destruct stop; simpl; [|reflexivity].
    symmetry. apply adjust_index_python_bound, len_nonneg. }
  rewrite Hlo, Hhi. split.
  - apply str_slice_len.
  - intros p Hp. rewrite str_slice_unfold.
    rewrite substring_correct1 by lia. f_equal. lia.
Qed.

(** A region inside the sequence, taken as a substring, is its Python
    slice. *)
Lemma substring_python (seq : string) (a b : Z) :
  0 <= a <= b -> b <= len seq ->
  python_slice_of seq (Some a) (Some b)
    (substring (Z.to_nat a) (Z.to_nat (b - a)) seq).
Proof.
  intros Hab Hb. rewrite <- str_slice_in_range by assumption.
  apply str_slice_python.
Qed.

(* ===================================================================== *)
(** * The capability probe                                                *)
(* ===================================================================== *)

(** Module initialisation returns the globals whenever [import eccLib]
    succeeds or fails with an [ImportError], whatever [hasattr] does. *)
Lemma module_init_absorbs (p : Platform) :
  match p with Ok _ => True | Raise e => is_ImportError e = true end ->
  exists g, fst (module_init p) = Ok g.
Proof.
  destruct p as [m|e]; simpl.
  - intros _. eexists. reflexivity.
  - intros ->. eexists. reflexivity.
Qed.

(** The backend is imported exactly once by module initialisation. *)
Lemma module_init_checks_once (p : Platform) :
  count_checks (snd (module_init p)) = 1%nat.
Proof.
  destruct p as [m|e]; simpl.
  - unfold count_checks, sanity_check_events. simpl.
    destruct (hasattr m "parseFASTA") as [[|]|]; reflexivity.
  - destruct (is_ImportError e); reflexivity.
Qed.

(** Any number of calls of [is_ecclib_available()] return the same value,
    leave the globals alone and emit nothing. *)
Lemma is_ecclib_available_stable (n : nat) (g : ProbeState) :
  call_is_ecclib_available_n n g = (repeat (is_ecclib_available g) n, g, []).
Proof.
  induction n as [|n IH]; simpl; [reflexivity|].
  rewrite IH. reflexivity.
Qed.

(** The globals produced by module initialisation. *)
Lemma module_init_globals (p : Platform) (g : ProbeState) (evs : list event) :
  module_init p = (Ok g, evs) ->
  g = {| ECCLIB_AVAILABLE := false; ECCLIB_WORKING := false |} \/
  g = {| ECCLIB_AVAILABLE := true; ECCLIB_WORKING := false |} \/
  g = {| ECCLIB_AVAILABLE := true; ECCLIB_WORKING := true |}.
Proof.
  unfold module_init. destruct p as [m|e].
  - intros H. injection H as <- _.
    destruct (sanity_check m) as [[|]|]; simpl; auto.
  - destruct (is_ImportError e); intros H; [|discriminate].
    injection H as <- _. auto.
Qed.

(** C5 (the slip): on a platform where [import eccLib] raises an exception
    that is not an [ImportError], here an [OSError], the handler
    [except ImportError] does not apply: the exception escapes the module
    body and the probe raises instead of answering [False]. *)
Theorem probe_raises_on_broken_import :
  is_ImportError (Exn (OtherException "OSError") "cannot load native library") = false /\
  fst (module_init broken_platform)
    = Raise (Exn (OtherException "OSError") "cannot load native library") /\
  probe broken_platform
    = Raise (Exn (OtherException "OSError") "cannot load native library").
Proof. repeat split. Qed.

(** C9: in every state of the globals that module initialisation can
    produce, [ECCLIB_WORKING] implies [ECCLIB_AVAILABLE], and
    [is_ecclib_available()] returns the value of [ECCLIB_WORKING]. *)
Theorem working_implies_available (p : Platform) (g : ProbeState) (evs : list event) :
  module_init p = (Ok g, evs) ->
  (ECCLIB_WORKING g = true -> ECCLIB_AVAILABLE g = true) /\
  is_ecclib_available g = ECCLIB_WORKING g.
Proof.
  intros H. apply module_init_globals in H.
  destruct H as [-> | [-> | ->]]; simpl; split; auto; discriminate.
Qed.

Lemma working_implies_available_witness :
  module_init good_platform
    = (Ok {| ECCLIB_AVAILABLE := true; ECCLIB_WORKING := true |},
       [ImportModule "eccLib"; Hasattr "parseFASTA"; Hasattr "parseGTF"]) /\
  ((ECCLIB_WORKING {| ECCLIB_AVAILABLE := true; ECCLIB_WORKING := true |} = true ->
    ECCLIB_AVAILABLE {| ECCLIB_AVAILABLE := true; ECCLIB_WORKING := true |} = true) /\
   is_ecclib_available {| ECCLIB_AVAILABLE := true; ECCLIB_WORKING := true |}
     = ECCLIB_WORKING {| ECCLIB_AVAILABLE := true; ECCLIB_WORKING := true |}).
Proof.
  split; [reflexivity|].
  apply (working_implies_available good_platform _ _ eq_refl).
Defined.

(* ===================================================================== *)
(** * The factory                                                         *)
(* ===================================================================== *)

Section factory_properties.
Context {Py : PyfaidxEngine} {Ecc : EccLibEngine}.

(** The factory only logs: it never calls an engine. *)
Lemma get_fasta_reader_no_engine_call (g : ProbeState) (use_ecclib : bool) :
  List.filter is_engine_call (snd (get_fasta_reader g use_ecclib)) = [].
Proof.
  unfold get_fasta_reader.
  destruct use_ecclib, (is_ecclib_available g), (ECCLIB_AVAILABLE g); reflexivity.
Qed.

(** A fallback is announced by exactly one warning, which tells the two
    reasons apart; no warning is logged otherwise. *)
Lemma get_fasta_reader_fallback_log (g : ProbeState) :
  snd (get_fasta_reader g true) =
    if is_ecclib_available g then [LogInfo "Using eccLib for FASTA access"]
    else if ECCLIB_AVAILABLE g
    then [LogWarning "eccLib is installed but not working correctly on this platform, falling back to pyfaidx"]
    else [LogWarning "eccLib requested but not installed, falling back to pyfaidx"].
Proof.
  unfold get_fasta_reader.
  destruct (is_ecclib_available g), (ECCLIB_AVAILABLE g); reflexivity.
Qed.

(** Exactly one warning accompanies a fallback, none a direct choice. *)
Lemma get_fasta_reader_warnings (g : ProbeState) (use_ecclib : bool) :
  List.length (List.filter is_warning (snd (get_fasta_reader g use_ecclib)))
    = if use_ecclib && negb (is_ecclib_available g) then 1%nat else 0%nat.
Proof.
  unfold get_fasta_reader.
  destruct use_ecclib, (is_ecclib_available g), (ECCLIB_AVAILABLE g); reflexivity.
Qed.

(** C1: [get_fasta_reader(use_ecclib)] returns a fresh
    [EccLibFASTAReader] exactly when [use_ecclib] is true and the probe
    reports the backend both available and working; in every other case
    it returns a fresh [PyfaidxReader]. *)
Theorem get_fasta_reader_selection (g : ProbeState) (use_ecclib : bool) :
  (fst (get_fasta_reader g use_ecclib) = IsEccLibFASTAReader EccLibFASTAReader.__init__
   <-> use_ecclib = true /\ ECCLIB_AVAILABLE g = true /\ ECCLIB_WORKING g = true) /\
  (fst (get_fasta_reader g use_ecclib) = IsPyfaidxReader PyfaidxReader.__init__
   <-> ~ (use_ecclib = true /\ ECCLIB_AVAILABLE g = true /\ ECCLIB_WORKING g = true)) /\
  is_EccLibFASTAReader (fst (get_fasta_reader g use_ecclib))
    = use_ecclib && (ECCLIB_AVAILABLE g && ECCLIB_WORKING g).
Proof.
  destruct g as [a w]. unfold get_fasta_reader, is_ecclib_available. simpl.
  destruct use_ecclib, a, w; simpl;
    (split; [|split]); try reflexivity;
    split; try discriminate; try (intros; reflexivity); try tauto;
    try (intros [? [? ?]]; discriminate);
    try (intros _ [? [? ?]]; discriminate);
    try (intros H; exfalso; apply H; auto).
Qed.

End factory_properties.

(* ===================================================================== *)
(** * The eccLib adapter: cache                                           *)
(* ===================================================================== *)

Section ecclib_reader_properties.
Context {E : EccLibEngine}.
Import EccLibFASTAReader.

(** The loop of [load] over ids of the dictionary itself never raises;
    it writes the decoded record of every id it visits and leaves the
    other entries as they were. *)
Lemma precache_spec (data : gmap string EccRecord) (keys : list string)
      (cache : gmap string string) :
  (forall k, k ∈ keys -> is_Some (data !! k)) ->
  exists cache',
    precache data keys cache = (Ok tt, cache') /\
    forall chr_id,
      cache' !! chr_id =
        if decide (chr_id ∈ keys) then dump <$> data !! chr_id else cache !! chr_id.
Proof.
  revert cache. induction keys as [|k keys IH]; intros cache Hin.
  - exists cache. split; [reflexivity|]. intros c.
    destruct (decide (c ∈ [])) as [Hc|_]; [inversion Hc | reflexivity].
  - destruct (Hin k) as [rec Hrec]; [left|].
    simpl. unfold dict_getitem. rewrite Hrec.
    destruct (IH (<[k := dump rec]> cache)) as (cache' & Hrun & Hlook).
    { intros k' Hk'. apply Hin. now right. }
    exists cache'. split; [assumption|]. intros c. rewrite Hlook.
    destruct (decide (c ∈ keys)) as [Hc|Hc].
    + rewrite decide_True by now right. reflexivity.
    + destruct (decide (c = k)) as [->|Hne].
      * rewrite decide_True by left. now rewrite lookup_insert_eq, Hrec.
      * rewrite decide_False.
        -- now rewrite lookup_insert_ne.
        -- intros Hc'. apply elem_of_cons in Hc'. tauto.
Qed.

Lemma elem_of_dict_keys {V : Type} (d : gmap string V) (k : string) :
  k ∈ dict_keys d <-> is_Some (d !! k).
Proof.
  unfold dict_keys. rewrite list_elem_of_fmap. split.
  - intros ([k' v] & -> & Hin). apply elem_of_map_to_list in Hin. now exists v.
  - intros [v Hv]. exists (k, v). split; [reflexivity|].
    now apply elem_of_map_to_list.
Qed.

(** A [load] whose parse succeeds: the reader holds the parsed data and
    a cache that has the decoded record of every chromosome of the file
    and, for other ids, what it had before. *)
Lemma load_parsed (self : t) (fasta_path : string) (index_path : option string)
      (data : gmap string EccRecord) :
  parseFASTA fasta_path = Ok data ->
  exists cache',
    load self fasta_path index_path
      = (Ok tt, {| fasta_data := Some data; _sequence_cache := cache' |},
         [CallParseFASTA fasta_path]) /\
    forall chr_id,
      cache' !! chr_id =
        match data !! chr_id with
        | Some rec => Some (dump rec)
        | None => _sequence_cache self !! chr_id
        end.
Proof.
  intros Hparse. unfold load. rewrite Hparse.
  destruct (precache_spec data (dict_keys data) (_sequence_cache self))
    as (cache' & Hrun & Hlook).
  { intros k. apply elem_of_dict_keys. }
  rewrite Hrun. exists cache'. split; [reflexivity|].
  intros c. rewrite Hlook.
  destruct (decide (c ∈ dict_keys data)) as [Hc|Hc].
  - apply elem_of_dict_keys in Hc as [rec ->]. reflexivity.
  - destruct (data !! c) as [rec|] eqn:Hd; [|reflexivity].
    exfalso. apply Hc, elem_of_dict_keys. now exists rec.
Qed.

(** After a [load] whose parse succeeds the cache is complete. *)
Lemma load_cache_complete (self : t) (fasta_path : string) (index_path : option string)
      (data : gmap string EccRecord) :
  parseFASTA fasta_path = Ok data ->
  cache_complete (load self fasta_path index_path).1.2.
Proof.
  intros Hparse.
  destruct (load_parsed self fasta_path index_path data Hparse) as (cache' & -> & Hlook).
  intros d c Hd [rec Hrec]. simpl in *. injection Hd as <-.
  rewrite Hlook, Hrec. now eexists.
Qed.

(** A [load] whose parse raises: same exception, reader untouched, one
    warning carrying the message. *)
Lemma load_parse_failed (self : t) (fasta_path : string) (index_path : option string)
      (e : exn) :
  parseFASTA fasta_path = Raise e ->
  load self fasta_path index_path
    = (Raise e, self,
       [CallParseFASTA fasta_path;
        LogWarning ("eccLib FASTA parsing failed: " +:+ exn_msg e)]).
Proof. intros Hparse. unfold load. now rewrite Hparse. Qed.

(** [load] calls the engine exactly once, whatever the outcome. *)
Lemma load_one_engine_call (self : t) (fasta_path : string) (index_path : option string) :
  List.filter is_engine_call (load self fasta_path index_path).2
    = [CallParseFASTA fasta_path].
Proof.
  destruct (parseFASTA fasta_path) as [data|e] eqn:Hparse.
  - destruct (load_parsed self fasta_path index_path data Hparse) as (c & -> & _).
    reflexivity.
  - rewrite (load_parse_failed self fasta_path index_path e Hparse). reflexivity.
Qed.

Lemma remember_cached (self : t) (chr_id seq : string) :
  _sequence_cache self !! chr_id = Some seq -> remember self chr_id seq = self.
Proof.
  intros H. destruct self as [d c]. unfold remember. simpl in *.
  now rewrite insert_id.
Qed.

(** [get_sequence] in one equation. *)
Lemma get_sequence_eq (self : t) (chr_id : string) (start end_ : option Z) :
  get_sequence self chr_id start end_ =
    match full_sequence self chr_id with
    | Ok seq => (Ok (str_slice seq start end_), remember self chr_id seq)
    | Raise e => (Raise e, self)
    end.
Proof.
  unfold get_sequence, full_sequence.
  destruct (_sequence_cache self !! chr_id) as [seq|] eqn:Hc.
  - rewrite (remember_cached _ _ _ Hc).
    destruct start, end_; try reflexivity. now rewrite str_slice_full.
  - destruct (dump_from_data self chr_id) as [seq|e]; [|reflexivity].
    destruct start, end_; try reflexivity.
    now rewrite str_slice_full.
Qed.

(** [get_chromosome_length] in one equation. *)
Lemma get_chromosome_length_eq (self : t) (chr_id : string) :
  get_chromosome_length self chr_id =
    match full_sequence self chr_id with
    | Ok seq => (Ok (len seq), remember self chr_id seq)
    | Raise e => (Raise e, self)
    end.
Proof.
  unfold get_chromosome_length, full_sequence.
  destruct (_sequence_cache self !! chr_id) as [seq|] eqn:Hc.
  - now rewrite (remember_cached _ _ _ Hc).
  - destruct (dump_from_data self chr_id) as [seq|e]; reflexivity.
Qed.

Lemma dump_from_data_present (self : t) (data : gmap string EccRecord)
      (chr_id : string) (rec : EccRecord) :
  fasta_data self = Some data -> data !! chr_id = Some rec ->
  dump_from_data self chr_id = Ok (dump rec).
Proof.
  intros Hd Hrec. unfold dump_from_data, dict_getitem. now rewrite Hd, Hrec.
Qed.

Lemma dump_from_data_inv (self : t) (chr_id seq : string) :
  dump_from_data self chr_id = Ok seq ->
  exists data rec,
    fasta_data self = Some data /\ data !! chr_id = Some rec /\ seq = dump rec.
Proof.
  unfold dump_from_data, dict_getitem.
  destruct (fasta_data self) as [data|]; [|discriminate].
  destruct (data !! chr_id) as [rec|] eqn:Hrec; simpl; [|discriminate].
  intros H. injection H as <-. eauto.
Qed.

(** With a sound cache, a chromosome of the data is answered with its
    decoded record. *)
Lemma full_sequence_present (self : t) (data : gmap string EccRecord)
      (chr_id : string) (rec : EccRecord) :
  cache_sound self ->
  fasta_data self = Some data -> data !! chr_id = Some rec ->
  full_sequence self chr_id = Ok (dump rec).
Proof.
  intros Hsound Hd Hrec. unfold full_sequence.
  destruct (_sequence_cache self !! chr_id) as [seq|] eqn:Hc.
  - now rewrite (Hsound data chr_id rec seq Hd Hrec Hc).
  - now apply (dump_from_data_present self data).
Qed.

Lemma cache_sound_init : cache_sound __init__.
Proof. intros data c rec seq H. discriminate. Qed.

Lemma cache_sound_remember (self : t) (chr_id seq : string) :
  cache_sound self -> full_sequence self chr_id = Ok seq ->
  cache_sound (remember self chr_id seq).
Proof.
  intros Hsound Hfull data c rec s Hd Hrec Hc. simpl in *.
  destruct (decide (chr_id = c)) as [->|Hne].
  - rewrite lookup_insert_eq in Hc. injection Hc as <-.
    unfold full_sequence in Hfull.
    destruct (_sequence_cache self !! c) as [s0|] eqn:Hc0.
    + injection Hfull as ->. now apply (Hsound data c rec).
    + apply dump_from_data_inv in Hfull as (d' & r' & Hd' & Hr' & ->).
      congruence.
  - rewrite lookup_insert_ne in Hc by assumption.
    now apply (Hsound data c rec).
Qed.

Lemma cache_sound_step (self self' : t) :
  cache_sound self -> step self self' -> cache_sound self'.
Proof.
  intros Hsound Hstep. destruct Hstep as [self path idx | self c s e | self c].
  - destruct (parseFASTA path) as [data|e] eqn:Hparse.
    + destruct (load_parsed self path idx data Hparse) as (cache' & -> & Hlook).
      intros d c rec seq Hd Hrec Hc. simpl in *.
      injection Hd as <-. rewrite Hlook, Hrec in Hc. congruence.
    + now rewrite (load_parse_failed self path idx e Hparse).
  - rewrite get_sequence_eq.
    destruct (full_sequence self c) as [seq|err] eqn:Hfull; simpl; [|assumption].
    now apply cache_sound_remember.
  - rewrite get_chromosome_length_eq.
    destruct (full_sequence self c) as [seq|err] eqn:Hfull; simpl; [|assumption].
    now apply cache_sound_remember.
Qed.

(** Invariant: on every reader that public calls can produce, cached
    sequences of the current data are the decoded records. *)
Lemma reachable_cache_sound (self : t) : reachable self -> cache_sound self.
Proof.
  induction 1 as [|self self' _ IH Hstep].
  - apply cache_sound_init.
  - now apply (cache_sound_step self).
Qed.

End ecclib_reader_properties.

(* ===================================================================== *)
(** * The eccLib adapter: lookups                                         *)
(* ===================================================================== *)

Section ecclib_lookup.
Context {E : EccLibEngine}.
Import EccLibFASTAReader.

(** The length is always that of the sequence a lookup answers with. *)
Lemma get_chromosome_length_get_sequence (self : t) (chr_id : string) :
  get_chromosome_length self chr_id =
    (result_map len (get_sequence self chr_id None None).1,
     (get_sequence self chr_id None None).2).
Proof.
  rewrite get_chromosome_length_eq, get_sequence_eq.
  destruct (full_sequence self chr_id) as [seq|e]; simpl; [|reflexivity].
  now rewrite str_slice_full.
Qed.

(** C7: after a [load] whose parse succeeded, the cache holds the full
    decoded sequence of every chromosome id of the parsed file; and when
    the entry of a chromosome of the data is missing, [get_sequence] and
    [get_chromosome_length] decode it from the parsed data, return the
    value computed from it and leave the entry in the cache. *)
Theorem cache_filled_by_load_and_on_miss :
  (forall (self : t) (fasta_path : string) (index_path : option string)
          (data : gmap string EccRecord),
      parseFASTA fasta_path = Ok data ->
      exists self',
        load self fasta_path index_path = (Ok tt, self', [CallParseFASTA fasta_path]) /\
        fasta_data self' = Some data /\
        forall chr_id rec,
          data !! chr_id = Some rec ->
          _sequence_cache self' !! chr_id = Some (dump rec)) /\
  (forall (self : t) (data : gmap string EccRecord) (chr_id : string)
          (rec : EccRecord) (start end_ : option Z),
      fasta_data self = Some data ->
      data !! chr_id = Some rec ->
      _sequence_cache self !! chr_id = None ->
      exists self',
        get_sequence self chr_id start end_
          = (Ok (str_slice (dump rec) start end_), self') /\
        get_chromosome_length self chr_id = (Ok (len (dump rec)), self') /\
        fasta_data self' = Some data /\
        _sequence_cache self' !! chr_id = Some (dump rec)).
Proof.
  split.
  - intros self path idx data Hparse.
    destruct (load_parsed self path idx data Hparse) as (cache' & Hload & Hlook).
    eexists. split; [exact Hload|]. split; [reflexivity|].
    intros c rec Hrec. simpl. now rewrite Hlook, Hrec.
  - intros self data c rec start end_ Hd Hrec Hmiss.
    exists (remember self c (dump rec)).
    assert (Hfull : full_sequence self c = Ok (dump rec)).
    { unfold full_sequence. rewrite Hmiss.
      now apply (dump_from_data_present self data). }
    rewrite get_sequence_eq, get_chromosome_length_eq, Hfull.
    repeat split; [assumption|]. simpl. apply lookup_insert_eq.
Qed.

(** C8: for a chromosome of the loaded data, [get_chromosome_length]
    returns the length of the string that [get_sequence] returns without
    bounds, and both leave the reader in the same state. *)
Theorem length_is_length_of_sequence (self : t) (data : gmap string EccRecord)
        (chr_id : string) (rec : EccRecord) :
  fasta_data self = Some data ->
  data !! chr_id = Some rec ->
  exists seq self',
    get_sequence self chr_id None None = (Ok seq, self') /\
    get_chromosome_length self chr_id = (Ok (len seq), self').
Proof.
  intros Hd Hrec.
  assert (Hfull : exists seq, full_sequence self chr_id = Ok seq).
  { unfold full_sequence. destruct (_sequence_cache self !! chr_id) as [seq|].
    - now exists seq.
    - exists (dump rec). now apply (dump_from_data_present self data). }
  destruct Hfull as [seq Hfull].
  exists seq, (remember self chr_id seq).
  rewrite get_sequence_eq, get_chromosome_length_eq, Hfull.
  now rewrite str_slice_full.
Qed.

End ecclib_lookup.

(* ===================================================================== *)
(** * The chromosome record view                                          *)
(* ===================================================================== *)

Section record_view.
Context {E : EccLibEngine}.
Import EccLibChromosomeRecord.

(** C4: on a record over reader [reader] and chromosome [_chr_id], a
    slice key returns [reader.get_sequence(_chr_id, key.start, key.stop)];
    an integer key returns what indexing the full sequence with it
    returns, which for an offset inside the sequence is the single
    character there; a key of any other type raises a [TypeError] whose
    message ends with the name of the key's type, and the reader is
    left as it was. *)
Theorem record_getitem_contract (self : t) (reader : EccLibFASTAReader.t) :
  (forall start stop step,
      __getitem__ self (KeySlice start stop step) reader
        = EccLibFASTAReader.get_sequence reader (_chr_id self) start stop) /\
  (forall i seq reader',
      EccLibFASTAReader.get_sequence reader (_chr_id self) None None = (Ok seq, reader') ->
      __getitem__ self (KeyInt i) reader = (str_getitem seq i, reader') /\
      (0 <= i < len seq ->
       exists c, String.get (Z.to_nat i) seq = Some c /\
                 __getitem__ self (KeyInt i) reader = (Ok (String c EmptyString), reader'))) /\
  (forall type_name,
      __getitem__ self (KeyOther type_name) reader
        = (Raise (Exn TypeError ("indices must be integers or slices, not " +:+ type_name)),
           reader)).
Proof.
  split; [|split].
  - reflexivity.
  - intros i seq reader' Hget. simpl. rewrite Hget. split; [reflexivity|].
    intros Hi. destruct (get_in_range seq (Z.to_nat i)) as [c Hc].
    { unfold len in Hi. lia. }
    exists c. split; [assumption|].
    now rewrite (str_getitem_in_range seq i c (proj1 Hi) Hc).
  - reflexivity.
Qed.

(** C10: the step of a slice key is ignored: [record[start:stop:step]]
    returns what [record[start:stop]] returns (and leaves the reader in
    the same state), for every [step]. *)
Theorem record_getitem_ignores_step (self : t) (reader : EccLibFASTAReader.t)
        (start stop step : option Z) :
  __getitem__ self (KeySlice start stop step) reader
    = __getitem__ self (KeySlice start stop None) reader /\
  __getitem__ self (KeySlice start stop step) reader
    = match EccLibFASTAReader.full_sequence reader (_chr_id self) with
      | Ok seq => (Ok (str_slice seq start stop),
                   EccLibFASTAReader.remember reader (_chr_id self) seq)
      | Raise e => (Raise e, reader)
      end.
Proof. split; [reflexivity|]. simpl. apply get_sequence_eq. Qed.

(** On the loaded reference file, [record[0:4:2]] of [chr1] is the four
    characters of [chr1[0:4]], where the strided slice of the sequence
    has two. *)
Remark record_getitem_not_strided :
  (@__getitem__ toy_ecclib (__init__ "chr1") (KeySlice (Some 0) (Some 4) (Some 2))
     toy_loaded).1 = Ok "ACGT"%string /\
  str_slice_step "ACGTACGTAC" (Some 0) (Some 4) 2 = "AG"%string.
Proof. split; vm_compute; reflexivity. Qed.

End record_view.

(* ===================================================================== *)
(** * The pass-through adapter                                            *)
(* ===================================================================== *)

Section pyfaidx_reader_properties.
Context {Py : PyfaidxEngine}.
Import PyfaidxReader.

(** The four branches of [get_sequence] are one delegation. *)
Lemma py_get_sequence_eq (self : t) (chr_id : string) (start end_ : option Z) :
  get_sequence self chr_id start end_ =
    bind (fasta_record self chr_id) (fun rec => record_slice rec start end_).
Proof. unfold get_sequence. destruct start, end_; reflexivity. Qed.

(** [load] calls the engine exactly once, whatever the outcome. *)
Lemma py_load_one_engine_call (self : t) (fasta_path : string)
      (index_path : option string) :
  List.filter is_engine_call (load self fasta_path index_path).2
    = [CallFasta fasta_path (indexname index_path)].
Proof.
  unfold load, indexname. destruct (truthy index_path).
  - destruct (Fasta fasta_path index_path); reflexivity.
  - destruct (Fasta fasta_path None); reflexivity.
Qed.

End pyfaidx_reader_properties.

(* ===================================================================== *)
(** * The contract across the two adapters                                *)
(* ===================================================================== *)

Section contract.
Context {Py : PyfaidxEngine} {Ecc : EccLibEngine}.

Lemma reader_load_one_engine_call (reader : FASTAReaderInterface)
      (fasta_path : string) (index_path : option string) :
  List.filter is_engine_call (reader_load reader fasta_path index_path).2
    = [engine_call_of reader fasta_path index_path].
Proof.
  destruct reader as [r|r]; simpl.
  - pose proof (py_load_one_engine_call r fasta_path index_path) as H.
    destruct (PyfaidxReader.load r fasta_path index_path) as [[res r'] evs]. exact H.
  - pose proof (load_one_engine_call r fasta_path index_path) as H.
    destruct (EccLibFASTAReader.load r fasta_path index_path) as [[res r'] evs]. exact H.
Qed.

(** C6: when the parse raises, [EccLibFASTAReader.load] raises the same
    exception, after one warning that carries its message, and leaves
    the reader as it was; and when the [load] of the reader chosen by
    the factory raises, [create_fasta_reader] raises the same exception,
    having logged what selection and that one [load] logged and having
    called one engine, that of the chosen reader, once. *)
Theorem load_failure_propagates :
  (forall (self : EccLibFASTAReader.t) (fasta_path : string)
          (index_path : option string) (e : exn),
      parseFASTA fasta_path = Raise e ->
      EccLibFASTAReader.load self fasta_path index_path
        = (Raise e, self,
           [CallParseFASTA fasta_path;
            LogWarning ("eccLib FASTA parsing failed: " +:+ exn_msg e)])) /\
  (forall (g : ProbeState) (fasta_path : string) (index_path : option string)
          (use_ecclib : bool) (e : exn) (reader' : FASTAReaderInterface)
          (evs : list event),
      reader_load (get_fasta_reader g use_ecclib).1 fasta_path index_path
        = (Raise e, reader', evs) ->
      create_fasta_reader g fasta_path index_path use_ecclib
        = (Raise e, (get_fasta_reader g use_ecclib).2 ++ evs) /\
      List.filter is_engine_call ((get_fasta_reader g use_ecclib).2 ++ evs)
        = [engine_call_of (get_fasta_reader g use_ecclib).1 fasta_path index_path]).
Proof.
  split.
  - intros self path idx e. apply load_parse_failed.
  - intros g path idx flag e reader' evs Hload. split.
    + unfold create_fasta_reader.
      destruct (get_fasta_reader g flag) as [reader evs1]. simpl in *.
      now rewrite Hload.
    + rewrite List.filter_app, get_fasta_reader_no_engine_call. simpl.
      pose proof (reader_load_one_engine_call (get_fasta_reader g flag).1 path idx) as H.
      now rewrite Hload in H.
Qed.

(** C2 (as amended): on a loaded eccLib reader and a chromosome in it,
    [get_sequence(c, start, end)] is the Python slice [seq[start:end]] of
    the chromosome's decoded sequence for every present or omitted, negative
    or out-of-range [start] and [end], and [get_sequence(c)] is the full
    sequence.  On a loaded pyfaidx reader [get_sequence] hands the same
    four forms to pyfaidx with the bounds as given and returns what the
    slice of pyfaidx's record gives, error included; this is the Python
    slice of the sequence for bounds [0 <= start <= end <= length] of a
    region that pyfaidx exposes. *)
Theorem get_sequence_is_python_slice :
  (forall (r : EccLibFASTAReader.t) (data : gmap string EccRecord) (c : string)
          (rec : EccRecord) (start end_ : option Z),
      EccLibFASTAReader.reachable r ->
      EccLibFASTAReader.fasta_data r = Some data ->
      data !! c = Some rec ->
      (exists out,
          (EccLibFASTAReader.get_sequence r c start end_).1 = Ok out /\
          python_slice_of (dump rec) start end_ out /\
          out = str_slice (dump rec) start end_) /\
      (EccLibFASTAReader.get_sequence r c None None).1 = Ok (dump rec)) /\
  (forall (p : PyfaidxReader.t) (f : FastaFile) (c : string) (frec : FastaRecord)
          (start end_ : option Z),
      PyfaidxReader.fasta p = Some f ->
      fasta_getitem f c = Ok frec ->
      PyfaidxReader.get_sequence p c start end_ = record_slice frec start end_) /\
  (forall (p : PyfaidxReader.t) (f : FastaFile) (c : string) (frec : FastaRecord)
          (seq : string) (start end_ : Z),
      PyfaidxReader.fasta p = Some f ->
      fasta_getitem f c = Ok frec ->
      exposes_region frec seq start end_ ->
      0 <= start <= end_ -> end_ <= len seq ->
      exists out,
        PyfaidxReader.get_sequence p c (Some start) (Some end_) = Ok out /\
        python_slice_of seq (Some start) (Some end_) out).
Proof.
  split; [|split].
  - intros r data c rec start end_ Hreach Hd Hrec.
    rewrite !get_sequence_eq.
    rewrite (full_sequence_present r data c rec); auto using reachable_cache_sound.
    simpl. split.
    + exists (str_slice (dump rec) start end_).
      split; [reflexivity|]. split; [apply str_slice_python | reflexivity].
    + now rewrite str_slice_full.
  - intros p f c frec start end_ Hf Hrec.
    rewrite py_get_sequence_eq. unfold PyfaidxReader.fasta_record.
    now rewrite Hf, Hrec.
  - intros p f c frec seq start end_ Hf Hrec Hregion Hbounds Hend.
    exists (substring (Z.to_nat start) (Z.to_nat (end_ - start)) seq).
    rewrite py_get_sequence_eq. unfold PyfaidxReader.fasta_record.
    rewrite Hf, Hrec. simpl. split.
    + exact Hregion.
    + now apply substring_python.
Qed.

(** C3: for a chromosome present in both loaded readers and bounds
    [0 <= start <= end <= length], the eccLib adapter returns the
    substring of [end - start] characters from offset [start]; the two
    adapters return the same length when the indexed engine reports the
    length of the decoded sequence, and the same region when it exposes
    that region; so they return equal lengths and equal regions whenever
    the two engines expose the same sequence for the chromosome. *)
Theorem adapters_agree (p : PyfaidxReader.t) (f : FastaFile)
        (r : EccLibFASTAReader.t) (data : gmap string EccRecord)
        (c : string) (frec : FastaRecord) (rec : EccRecord) (start end_ : Z) :
  PyfaidxReader.fasta p = Some f ->
  fasta_getitem f c = Ok frec ->
  EccLibFASTAReader.reachable r ->
  EccLibFASTAReader.fasta_data r = Some data ->
  data !! c = Some rec ->
  0 <= start <= end_ ->
  end_ <= len (dump rec) ->
  (EccLibFASTAReader.get_sequence r c (Some start) (Some end_)).1
    = Ok (substring (Z.to_nat start) (Z.to_nat (end_ - start)) (dump rec)) /\
  result_map len (EccLibFASTAReader.get_sequence r c (Some start) (Some end_)).1
    = Ok (end_ - start) /\
  (record_len frec = len (dump rec) ->
   PyfaidxReader.get_chromosome_length p c
     = (EccLibFASTAReader.get_chromosome_length r c).1) /\
  (exposes_region frec (dump rec) start end_ ->
   PyfaidxReader.get_sequence p c (Some start) (Some end_)
     = (EccLibFASTAReader.get_sequence r c (Some start) (Some end_)).1) /\
  (same_sequence frec (dump rec) ->
   PyfaidxReader.get_chromosome_length p c
     = (EccLibFASTAReader.get_chromosome_length r c).1 /\
   PyfaidxReader.get_sequence p c (Some start) (Some end_)
     = (EccLibFASTAReader.get_sequence r c (Some start) (Some end_)).1).
Proof.
  intros Hf Hfrec Hreach Hd Hrec Hbounds Hend.
  assert (Hfull : EccLibFASTAReader.full_sequence r c = Ok (dump rec)).
  { apply (full_sequence_present r data); auto using reachable_cache_sound. }
  assert (Hlen : record_len frec = len (dump rec) ->
                 PyfaidxReader.get_chromosome_length p c
                 = (EccLibFASTAReader.get_chromosome_length r c).1).
  { intros Hl. rewrite get_chromosome_length_eq, Hfull.
    unfold PyfaidxReader.get_chromosome_length, PyfaidxReader.fasta_record.
    rewrite Hf, Hfrec. simpl. now rewrite Hl. }
  assert (Hseq : exposes_region frec (dump rec) start end_ ->
                 PyfaidxReader.get_sequence p c (Some start) (Some end_)
                 = (EccLibFASTAReader.get_sequence r c (Some start) (Some end_)).1).
  { intros Hregion. rewrite py_get_sequence_eq, get_sequence_eq, Hfull.
    unfold PyfaidxReader.fasta_record. rewrite Hf, Hfrec. simpl.
    rewrite str_slice_in_range by assumption. exact Hregion. }
  split; [|split; [|split; [|split]]].
  - rewrite get_sequence_eq, Hfull. simpl. now rewrite str_slice_in_range.
  - rewrite get_sequence_eq, Hfull. unfold result_map. simpl.
    now rewrite str_slice_in_range_len.
  - exact Hlen.
  - exact Hseq.
  - intros [Hl Hregions]. split; [now apply Hlen|].
    apply Hseq. now apply Hregions.
Qed.

End contract.

(* ===================================================================== *)
(** * The contract on the reference file                                  *)
(* ===================================================================== *)

Lemma toy_pyfaidx_same_sequence (rec : string) :
  @same_sequence toy_pyfaidx rec rec.
Proof.
  split; [reflexivity|]. intros start stop Hb He.
  unfold exposes_region. simpl. now rewrite str_slice_in_range.
Qed.

Lemma toy_loaded_reachable : EccLibFASTAReader.reachable toy_loaded.
Proof.
  apply (EccLibFASTAReader.reachable_step EccLibFASTAReader.__init__).
  - apply EccLibFASTAReader.reachable_init.
  - apply (EccLibFASTAReader.step_load EccLibFASTAReader.__init__ "ref.fa" None).
Qed.

(** On the loaded reference file: [chr1[2:]] through the eccLib reader and
    [chr2[1:3]] through the pyfaidx reader. *)
Lemma get_sequence_is_python_slice_witness :
  (exists out,
      (@EccLibFASTAReader.get_sequence toy_ecclib toy_loaded "chr1" (Some 2) None).1
        = Ok out /\
      python_slice_of "ACGTACGTAC" (Some 2) None out /\
      out = "GTACGTAC"%string) /\
  (exists out,
      @PyfaidxReader.get_sequence toy_pyfaidx toy_py_loaded "chr2" (Some 1) (Some 3)
        = Ok out /\
      python_slice_of "GGCCA" (Some 1) (Some 3) out).
Proof.
  destruct (@get_sequence_is_python_slice toy_pyfaidx toy_ecclib)
    as [Hecc [_ Hpy]].
  split.
  - apply (Hecc toy_loaded ref_fa "chr1"%string "ACGTACGTAC"%string (Some 2) None).
    + exact toy_loaded_reachable.
    + vm_compute; reflexivity.
    + vm_compute; reflexivity.
  - apply (Hpy toy_py_loaded ref_fa "chr2"%string "GGCCA"%string "GGCCA"%string 1 3).
    + vm_compute; reflexivity.
    + vm_compute; reflexivity.
    + vm_compute; reflexivity.
    + lia.
    + vm_compute; discriminate.
Defined.

(** C2 (as stated) fails for the pass-through adapter: over an indexed
    engine that refuses a start before the record, as pyfaidx does,
    [get_sequence("chr2", -6)] on the five-character [chr2] raises, where
    the Python slice [seq[-6:]] is the whole of [chr2]. *)
Lemma get_sequence_pass_through_not_python_slice :
  @PyfaidxReader.get_sequence strict_pyfaidx strict_py_loaded "chr2" (Some (-6)) None
    = Raise fetch_error /\
  python_slice_of "GGCCA" (Some (-6)) None "GGCCA" /\
  ~ (exists out,
        @PyfaidxReader.get_sequence strict_pyfaidx strict_py_loaded "chr2" (Some (-6)) None
          = Ok out /\
        python_slice_of "GGCCA" (Some (-6)) None out).
Proof.
  assert (Hget : @PyfaidxReader.get_sequence strict_pyfaidx strict_py_loaded
                   "chr2" (Some (-6)) None = Raise fetch_error)
    by (vm_compute; reflexivity).
  split; [exact Hget|]. split.
  - apply (str_slice_python "GGCCA" (Some (-6)) None).
  - intros (out & Hout & _). rewrite Hget in Hout. discriminate.
Qed.

Lemma adapters_agree_witness :
  (@EccLibFASTAReader.get_sequence toy_ecclib toy_loaded "chr1" (Some 2) (Some 6)).1
    = Ok "GTAC"%string /\
  result_map len (@EccLibFASTAReader.get_sequence toy_ecclib toy_loaded "chr1" (Some 2) (Some 6)).1
    = Ok 4 /\
  @PyfaidxReader.get_chromosome_length toy_pyfaidx toy_py_loaded "chr1"
    = (@EccLibFASTAReader.get_chromosome_length toy_ecclib toy_loaded "chr1").1 /\
  @PyfaidxReader.get_sequence toy_pyfaidx toy_py_loaded "chr1" (Some 2) (Some 6)
    = (@EccLibFASTAReader.get_sequence toy_ecclib toy_loaded "chr1" (Some 2) (Some 6)).1.
Proof.
  destruct (@adapters_agree toy_pyfaidx toy_ecclib
              toy_py_loaded ref_fa toy_loaded ref_fa "chr1"%string
              "ACGTACGTAC"%string "ACGTACGTAC"%string 2 6)
    as (Hecc & Hlen & _ & _ & Hsame).
  - vm_compute; reflexivity.
  - vm_compute; reflexivity.
  - exact toy_loaded_reachable.
  - vm_compute; reflexivity.
  - vm_compute; reflexivity.
  - lia.
  - vm_compute; discriminate.
  - split; [exact Hecc|]. split; [exact Hlen|].
    apply Hsame. apply toy_pyfaidx_same_sequence.
Defined.

Lemma record_getitem_contract_witness :
  @EccLibChromosomeRecord.__getitem__ toy_ecclib
     (EccLibChromosomeRecord.__init__ "chr2") (KeyInt 1) toy_loaded
    = (Ok "G"%string, toy_loaded).
Proof.
  destruct (@record_getitem_contract toy_ecclib
              (EccLibChromosomeRecord.__init__ "chr2") toy_loaded) as [_ [Hint _]].
  destruct (Hint 1 "GGCCA"%string toy_loaded) as [_ Hchar].
  - vm_compute; reflexivity.
  - destruct Hchar as [c [Hc Hget]].
    + vm_compute; split; [discriminate | reflexivity].
    + vm_compute in Hc. injection Hc as <-. exact Hget.
Defined.

Lemma load_failure_propagates_witness :
  @EccLibFASTAReader.load toy_ecclib EccLibFASTAReader.__init__ "missing.fa" None
    = (Raise no_such_file, EccLibFASTAReader.__init__,
       [CallParseFASTA "missing.fa";
        LogWarning "eccLib FASTA parsing failed: No such file or directory"]) /\
  @create_fasta_reader toy_pyfaidx toy_ecclib
     {| ECCLIB_AVAILABLE := true; ECCLIB_WORKING := true |} "missing.fa" None true
    = (Raise no_such_file,
       [LogInfo "Using eccLib for FASTA access"; CallParseFASTA "missing.fa";
        LogWarning "eccLib FASTA parsing failed: No such file or directory"]).
Proof.
  destruct (@load_failure_propagates toy_pyfaidx toy_ecclib) as [Hload Hcreate].
  split.
  - apply (Hload EccLibFASTAReader.__init__ "missing.fa"%string None no_such_file).
    reflexivity.
  - apply (Hcreate {| ECCLIB_AVAILABLE := true; ECCLIB_WORKING := true |}
             "missing.fa"%string None true no_such_file
             (IsEccLibFASTAReader EccLibFASTAReader.__init__)
             [CallParseFASTA "missing.fa";
              LogWarning "eccLib FASTA parsing failed: No such file or directory"]).
    reflexivity.
Defined.

Lemma cache_filled_by_load_and_on_miss_witness :
  (exists self',
      @EccLibFASTAReader.load toy_ecclib EccLibFASTAReader.__init__ "ref.fa" None
        = (Ok tt, self', [CallParseFASTA "ref.fa"]) /\
      EccLibFASTAReader.fasta_data self' = Some ref_fa /\
      forall chr_id rec,
        ref_fa !! chr_id = Some rec ->
        EccLibFASTAReader._sequence_cache self' !! chr_id = Some rec) /\
  (exists self',
      @EccLibFASTAReader.get_sequence toy_ecclib toy_uncached "chr2" (Some 1) (Some 3)
        = (Ok (str_slice "GGCCA" (Some 1) (Some 3)), self') /\
      @EccLibFASTAReader.get_chromosome_length toy_ecclib toy_uncached "chr2"
        = (Ok (len "GGCCA"), self') /\
      EccLibFASTAReader.fasta_data self' = Some ref_fa /\
      EccLibFASTAReader._sequence_cache self' !! "chr2"%string = Some "GGCCA"%string).
Proof.
  destruct (@cache_filled_by_load_and_on_miss toy_ecclib) as [Hload Hmiss].
  split.
  - apply (Hload EccLibFASTAReader.__init__ "ref.fa"%string None ref_fa).
    reflexivity.
  - apply (Hmiss toy_uncached ref_fa "chr2"%string "GGCCA"%string (Some 1) (Some 3)).
    + reflexivity.
    + vm_compute; reflexivity.
    + vm_compute; reflexivity.
Defined.

Lemma length_is_length_of_sequence_witness :
  exists seq self',
    @EccLibFASTAReader.get_sequence toy_ecclib toy_loaded "chr2" None None
      = (Ok seq, self') /\
    @EccLibFASTAReader.get_chromosome_length toy_ecclib toy_loaded "chr2"
      = (Ok (len seq), self').
Proof.
  apply (@length_is_length_of_sequence toy_ecclib toy_loaded ref_fa
           "chr2"%string "GGCCA"%string).
  - vm_compute; reflexivity.
  - vm_compute; reflexivity.
Defined.

(* ===================================================================== *)
(** * The eccLib adapter after load                                       *)
(* ===================================================================== *)

Section ecclib_loaded.
Context {E : EccLibEngine}.
Import EccLibFASTAReader.

Lemma cache_complete_init : cache_complete __init__.
Proof. intros data c H. discriminate. Qed.

Lemma cache_complete_remember (self : t) (chr_id seq : string) :
  cache_complete self -> cache_complete (remember self chr_id seq).
Proof.
  intros Hc data c Hd Hin. simpl in *.
  destruct (decide (chr_id = c)) as [->|Hne].
  - rewrite lookup_insert_eq. now eexists.
  - rewrite lookup_insert_ne by assumption. now apply (Hc data).
Qed.

Lemma cache_complete_step (self self' : t) :
  cache_complete self -> step self self' -> cache_complete self'.
Proof.
  intros Hc Hstep. destruct Hstep as [self path idx | self c s e | self c].
  - destruct (parseFASTA path) as [data|e] eqn:Hparse.
    + now apply (load_cache_complete self path idx data).
    + now rewrite (load_parse_failed self path idx e Hparse).
  - rewrite get_sequence_eq.
    destruct (full_sequence self c) as [seq|err]; simpl; [|assumption].
    now apply cache_complete_remember.
  - rewrite get_chromosome_length_eq.
    destruct (full_sequence self c) as [seq|err]; simpl; [|assumption].
    now apply cache_complete_remember.
Qed.

(** Invariant: on every reader that public calls can produce, each
    chromosome of the current data is cached. *)
Lemma reachable_cache_complete (self : t) : reachable self -> cache_complete self.
Proof.
  induction 1 as [|self self' _ IH Hstep].
  - apply cache_complete_init.
  - now apply (cache_complete_step self).
Qed.

(** With a complete cache a lookup never writes. *)
Lemma complete_lookup_keeps_state (self : t) (chr_id : string) :
  cache_complete self ->
  match full_sequence self chr_id with
  | Ok seq => remember self chr_id seq = self
  | Raise _ => True
  end.
Proof.
  intros Hc. unfold full_sequence.
  destruct (_sequence_cache self !! chr_id) as [seq|] eqn:Hcache.
  - now apply remember_cached.
  - destruct (dump_from_data self chr_id) as [seq|e] eqn:Hdump; [|exact I].
    apply dump_from_data_inv in Hdump as (data & rec & Hd & Hrec & _).
    destruct (Hc data chr_id Hd) as [x Hx]; [now exists rec | congruence].
Qed.

(** A lookup on a reachable reader, for a chromosome of its data. *)
Lemma get_sequence_loaded (self : t) (data : gmap string EccRecord)
      (chr_id : string) (rec : EccRecord) (start end_ : option Z) :
  reachable self -> fasta_data self = Some data -> data !! chr_id = Some rec ->
  get_sequence self chr_id start end_ = (Ok (str_slice (dump rec) start end_), self).
Proof.
  intros Hreach Hd Hrec. rewrite get_sequence_eq.
  pose proof (complete_lookup_keeps_state self chr_id
                (reachable_cache_complete self Hreach)) as Hkeep.
  rewrite (full_sequence_present self data chr_id rec) in *;
    auto using reachable_cache_sound.
  now rewrite Hkeep.
Qed.

(** X1: a [load] that returns without raising leaves every chromosome of
    the parsed data in the cache; and on a reader in that condition
    [get_sequence] and [get_chromosome_length] leave the reader exactly
    as it was, for every id and all bounds: the insert-on-miss branch is
    not taken. *)
Theorem lookups_read_only :
  (forall (self : t) (fasta_path : string) (index_path : option string),
      (load self fasta_path index_path).1.1 = Ok tt ->
      cache_complete (load self fasta_path index_path).1.2) /\
  (forall (self : t) (chr_id : string) (start end_ : option Z),
      cache_complete self ->
      (get_sequence self chr_id start end_).2 = self /\
      (get_chromosome_length self chr_id).2 = self).
Proof.
  split.
  - intros self path idx Hok.
    destruct (parseFASTA path) as [data|e] eqn:Hparse.
    + now apply (load_cache_complete self path idx data).
    + rewrite (load_parse_failed self path idx e Hparse) in Hok. discriminate.
  - intros self chr_id start end_ Hcomplete.
    pose proof (complete_lookup_keeps_state self chr_id Hcomplete) as Hkeep.
    rewrite get_sequence_eq, get_chromosome_length_eq.
    destruct (full_sequence self chr_id) as [seq|e]; simpl; auto.
Qed.

(** X2: for a chromosome of a loaded reader and every [k], positive,
    negative or out of range, [get_sequence(c, None, k)] followed by
    [get_sequence(c, k, None)] is the chromosome's whole sequence. *)
Theorem get_sequence_prefix_suffix (self : t) (data : gmap string EccRecord)
        (chr_id : string) (rec : EccRecord) (k : Z) :
  reachable self -> fasta_data self = Some data -> data !! chr_id = Some rec ->
  exists prefix suffix,
    (get_sequence self chr_id None (Some k)).1 = Ok prefix /\
    (get_sequence self chr_id (Some k) None).1 = Ok suffix /\
    prefix +:+ suffix = dump rec /\
    (get_sequence self chr_id None None).1 = Ok (prefix +:+ suffix).
Proof.
  intros Hreach Hd Hrec.
  exists (str_slice (dump rec) None (Some k)), (str_slice (dump rec) (Some k) None).
  rewrite !(get_sequence_loaded self data chr_id rec) by assumption. simpl.
  rewrite str_slice_prefix_suffix, str_slice_full. auto.
Qed.

(** X3: for a chromosome of a loaded reader [get_sequence] never raises,
    whatever the bounds: it returns a string of
    [max(0, hi - lo)] characters, where [lo] and [hi] are the bounds
    counted from the end when negative and clamped to the sequence; so
    never more than the chromosome has, and none when [start] lies at or
    after [end]. *)
Theorem get_sequence_length (self : t) (data : gmap string EccRecord)
        (chr_id : string) (rec : EccRecord) (start end_ : option Z) :
  reachable self -> fasta_data self = Some data -> data !! chr_id = Some rec ->
  exists seq,
    (get_sequence self chr_id start end_).1 = Ok seq /\
    len seq = Z.max 0 (slice_hi (len (dump rec)) end_ - slice_lo (len (dump rec)) start) /\
    0 <= len seq <= len (dump rec).
Proof.
  intros Hreach Hd Hrec. exists (str_slice (dump rec) start end_).
  rewrite (get_sequence_loaded self data chr_id rec) by assumption.
  split; [reflexivity|]. rewrite str_slice_len. split; [reflexivity|].
  pose proof (slice_lo_range (len (dump rec)) start (len_nonneg _)).
  pose proof (slice_hi_range (len (dump rec)) end_ (len_nonneg _)).
  lia.
Qed.

(** X4: a negative bound no further back than the chromosome is long
    means the same as that bound plus the chromosome's length, for
    [start] and for [end]. *)
Theorem get_sequence_negative_bounds (self : t) (data : gmap string EccRecord)
        (chr_id : string) (rec : EccRecord) (i : Z) (other : option Z) :
  reachable self -> fasta_data self = Some data -> data !! chr_id = Some rec ->
  - len (dump rec) <= i < 0 ->
  get_sequence self chr_id (Some i) other
    = get_sequence self chr_id (Some (i + len (dump rec))) other /\
  get_sequence self chr_id other (Some i)
    = get_sequence self chr_id other (Some (i + len (dump rec))).
Proof.
  intros Hreach Hd Hrec Hi.
  rewrite !(get_sequence_loaded self data chr_id rec) by assumption.
  rewrite !str_slice_unfold. simpl slice_lo. simpl slice_hi.
  now rewrite (adjust_index_negative _ i Hi).
Qed.

(** X5: in any state, repeating a lookup returns what the first call
    returned and changes nothing more; a length query after a sequence
    query changes nothing either. *)
Theorem lookup_idempotent (self : t) (chr_id : string) (start end_ : option Z) :
  get_sequence (get_sequence self chr_id start end_).2 chr_id start end_
    = get_sequence self chr_id start end_ /\
  (get_chromosome_length (get_sequence self chr_id start end_).2 chr_id).2
    = (get_sequence self chr_id start end_).2 /\
  (get_chromosome_length (get_sequence self chr_id start end_).2 chr_id).1
    = (get_chromosome_length self chr_id).1.
Proof.
  rewrite !get_sequence_eq, !get_chromosome_length_eq.
  destruct (full_sequence self chr_id) as [seq|e] eqn:Hfull; simpl.
  - assert (Hhit : full_sequence (remember self chr_id seq) chr_id = Ok seq).
    { unfold full_sequence. simpl. now rewrite lookup_insert_eq. }
    assert (Hsame : remember (remember self chr_id seq) chr_id seq
                    = remember self chr_id seq).
    { apply remember_cached. simpl. apply lookup_insert_eq. }
    rewrite ?get_sequence_eq, ?get_chromosome_length_eq, ?Hhit, ?Hsame. auto.
  - rewrite ?get_sequence_eq, ?get_chromosome_length_eq, ?Hfull. auto.
Qed.

(** X6: in any state, a lookup never touches the parsed data and never
    drops or changes a cache entry that was there. *)
Theorem lookups_keep_data_and_entries (self : t) (chr_id : string)
        (start end_ : option Z) (other seq : string) :
  _sequence_cache self !! other = Some seq ->
  fasta_data (get_sequence self chr_id start end_).2 = fasta_data self /\
  _sequence_cache (get_sequence self chr_id start end_).2 !! other = Some seq /\
  fasta_data (get_chromosome_length self chr_id).2 = fasta_data self /\
  _sequence_cache (get_chromosome_length self chr_id).2 !! other = Some seq.
Proof.
  intros Hother. rewrite get_sequence_eq, get_chromosome_length_eq.
  destruct (full_sequence self chr_id) as [s|e] eqn:Hfull; simpl; auto.
  assert (Hkept : <[chr_id := s]> (_sequence_cache self) !! other = Some seq).
  { destruct (decide (chr_id = other)) as [->|Hne].
    - unfold full_sequence in Hfull. rewrite Hother in Hfull.
      injection Hfull as ->. apply lookup_insert_eq.
    - now rewrite lookup_insert_ne. }
  auto.
Qed.

End ecclib_loaded.

(* ===================================================================== *)
(** * Chromosome ids, missing chromosomes and reloading                   *)
(* ===================================================================== *)

Section ecclib_ids.
Context {E : EccLibEngine}.
Import EccLibFASTAReader.

(** A reader loaded once after construction answers an id that is not in
    the file with [KeyError]. *)
Lemma loaded_once_missing (fasta_path : string) (index_path : option string)
      (data : gmap string EccRecord) (chr_id : string) :
  parseFASTA fasta_path = Ok data ->
  data !! chr_id = None ->
  full_sequence (load __init__ fasta_path index_path).1.2 chr_id
    = Raise (Exn KeyError chr_id).
Proof.
  intros Hparse Hnone.
  destruct (load_parsed __init__ fasta_path index_path data Hparse)
    as (cache' & -> & Hlook).
  unfold full_sequence, dump_from_data, dict_getitem. simpl.
  rewrite Hlook, Hnone. simpl. now rewrite lookup_empty.
Qed.

(** X7: on a reader loaded once after construction,
    [get_chromosome_ids()] lists each chromosome of the file once, and
    [get_sequence(c)] succeeds exactly for the listed ids; for any other
    id it raises [KeyError(c)] and leaves the reader as it was, and so
    does [get_chromosome_length(c)]. *)
Theorem loaded_once_ids_and_lookups (fasta_path : string) (index_path : option string)
        (data : gmap string EccRecord) (chr_id : string) (start end_ : option Z) :
  parseFASTA fasta_path = Ok data ->
  let self := (load __init__ fasta_path index_path).1.2 in
  get_chromosome_ids self = Ok (dict_keys data) /\
  NoDup (dict_keys data) /\
  (chr_id ∈ dict_keys data <->
   exists seq, (get_sequence self chr_id start end_).1 = Ok seq) /\
  (chr_id ∉ dict_keys data ->
   get_sequence self chr_id start end_ = (Raise (Exn KeyError chr_id), self) /\
   get_chromosome_length self chr_id = (Raise (Exn KeyError chr_id), self)).
Proof.
  intros Hparse self.
  destruct (load_parsed __init__ fasta_path index_path data Hparse)
    as (cache' & Hload & Hlook).
  assert (Hself : self = {| fasta_data := Some data; _sequence_cache := cache' |}).
  { unfold self. now rewrite Hload. }
  clearbody self. subst self.
  assert (Hmiss : chr_id ∉ dict_keys data ->
                  full_sequence {| fasta_data := Some data; _sequence_cache := cache' |} chr_id
                  = Raise (Exn KeyError chr_id)).
  { intros Hnot. unfold full_sequence, dump_from_data, dict_getitem. simpl.
    destruct (data !! chr_id) as [rec|] eqn:Hrec.
    - exfalso. apply Hnot, elem_of_dict_keys. now exists rec.
    - rewrite Hlook, Hrec. simpl. now rewrite lookup_empty. }
  split; [reflexivity|]. split; [apply NoDup_fst_map_to_list|]. split.
  - rewrite get_sequence_eq. split.
    + intros Hin. apply elem_of_dict_keys in Hin as [rec Hrec].
      unfold full_sequence. simpl. rewrite Hlook, Hrec. simpl. eauto.
    + intros [seq Hseq]. destruct (decide (chr_id ∈ dict_keys data)) as [|Hnot];
        [assumption|]. rewrite (Hmiss Hnot) in Hseq. discriminate.
  - intros Hnot. rewrite get_sequence_eq, get_chromosome_length_eq, (Hmiss Hnot).
    auto.
Qed.

(** X8: loading a second file does not clear the cache: a chromosome that
    was cached and is not in the new file is still answered, from the old
    entry, by [get_sequence] and [get_chromosome_length], although
    [get_chromosome_ids()] lists the new file's chromosomes only. *)
Theorem stale_entry_survives_reload (self : t) (fasta_path : string)
        (index_path : option string) (data : gmap string EccRecord)
        (chr_id old_seq : string) (start end_ : option Z) :
  parseFASTA fasta_path = Ok data ->
  data !! chr_id = None ->
  _sequence_cache self !! chr_id = Some old_seq ->
  let self' := (load self fasta_path index_path).1.2 in
  get_sequence self' chr_id start end_ = (Ok (str_slice old_seq start end_), self') /\
  get_chromosome_length self' chr_id = (Ok (len old_seq), self') /\
  get_chromosome_ids self' = Ok (dict_keys data) /\
  chr_id ∉ dict_keys data.
Proof.
  intros Hparse Hnew Hold self'.
  destruct (load_parsed self fasta_path index_path data Hparse)
    as (cache' & Hload & Hlook).
  assert (Hself : self' = {| fasta_data := Some data; _sequence_cache := cache' |}).
  { unfold self'. now rewrite Hload. }
  clearbody self'. subst self'.
  assert (Hhit : cache' !! chr_id = Some old_seq) by now rewrite Hlook, Hnew.
  rewrite get_sequence_eq, get_chromosome_length_eq.
  unfold full_sequence. simpl. rewrite Hhit.
  rewrite remember_cached by exact Hhit.
  repeat split. intros Hin. apply elem_of_dict_keys in Hin as [rec Hrec]. congruence.
Qed.

End ecclib_ids.

(* ===================================================================== *)
(** * More on the chromosome record view                                  *)
(* ===================================================================== *)

Section record_view_more.
Context {E : EccLibEngine}.
Import EccLibChromosomeRecord.

(** X9: on a view of a chromosome of a loaded reader, an integer index
    inside the sequence returns what the slice of that one position
    returns: [record[i] = record[i:i+1]] for [0 <= i < len(record)]. *)
Theorem record_index_is_unit_slice (self : t) (reader : EccLibFASTAReader.t)
        (data : gmap string EccRecord) (rec : EccRecord) (i : Z) (step : option Z) :
  EccLibFASTAReader.reachable reader ->
  EccLibFASTAReader.fasta_data reader = Some data ->
  data !! _chr_id self = Some rec ->
  0 <= i < len (dump rec) ->
  __getitem__ self (KeyInt i) reader
    = __getitem__ self (KeySlice (Some i) (Some (i + 1)) step) reader.
Proof.
  intros Hreach Hd Hrec Hi. simpl.
  rewrite !(get_sequence_loaded reader data (_chr_id self) rec) by assumption.
  rewrite str_slice_full, (str_getitem_unit_slice _ _ Hi). reflexivity.
Qed.

(** X10: on such a view an integer index in [-len, len) returns one
    character, that at the offset counted from the end when negative; any
    other integer raises [IndexError]; the reader is unchanged either
    way. *)
Theorem record_index_range (self : t) (reader : EccLibFASTAReader.t)
        (data : gmap string EccRecord) (rec : EccRecord) (i : Z) :
  EccLibFASTAReader.reachable reader ->
  EccLibFASTAReader.fasta_data reader = Some data ->
  data !! _chr_id self = Some rec ->
  (- len (dump rec) <= i < len (dump rec) ->
   exists c,
     String.get (Z.to_nat (i mod len (dump rec))) (dump rec) = Some c /\
     __getitem__ self (KeyInt i) reader = (Ok (String c EmptyString), reader)) /\
  (i < - len (dump rec) \/ len (dump rec) <= i ->
   __getitem__ self (KeyInt i) reader
     = (Raise (Exn IndexError "string index out of range"), reader)).
Proof.
  intros Hreach Hd Hrec. simpl.
  rewrite (get_sequence_loaded reader data (_chr_id self) rec) by assumption.
  rewrite str_slice_full. split.
  - intros Hi. destruct (str_getitem_char (dump rec) i Hi) as (c & Hc & Hget).
    exists c. now rewrite Hget.
  - intros Hi. now rewrite str_getitem_out_of_range.
Qed.

(** X11: on such a view [str(record)] is the chromosome's sequence,
    [len(record)] is its length, and the slice from 0 to [len(record)]
    (like any slice whose bounds cover the sequence) is [str(record)]. *)
Theorem record_str_len_cover (self : t) (reader : EccLibFASTAReader.t)
        (data : gmap string EccRecord) (rec : EccRecord)
        (start stop step : option Z) :
  EccLibFASTAReader.reachable reader ->
  EccLibFASTAReader.fasta_data reader = Some data ->
  data !! _chr_id self = Some rec ->
  __str__ self reader = (Ok (dump rec), reader) /\
  __len__ self reader = (Ok (len (dump rec)), reader) /\
  __getitem__ self (KeySlice (Some 0) (Some (len (dump rec))) step) reader
    = __str__ self reader /\
  (slice_lo (len (dump rec)) start = 0 ->
   slice_hi (len (dump rec)) stop = len (dump rec) ->
   __getitem__ self (KeySlice start stop step) reader = __str__ self reader).
Proof.
  intros Hreach Hd Hrec. unfold __str__, __len__. simpl.
  rewrite !(get_sequence_loaded reader data (_chr_id self) rec) by assumption.
  rewrite get_chromosome_length_eq.
  pose proof (complete_lookup_keeps_state reader (_chr_id self)
                (reachable_cache_complete reader Hreach)) as Hkeep.
  rewrite (full_sequence_present reader data (_chr_id self) rec) in *;
    auto using reachable_cache_sound.
  rewrite Hkeep, str_slice_full.
  pose proof (len_nonneg (dump rec)) as Hn.
  repeat split.
  - rewrite str_slice_cover; [reflexivity| |].
    + simpl. unfold adjust_index. simpl. lia.
    + simpl. unfold adjust_index.
      destruct (Z.ltb_spec (len (dump rec)) 0); lia.
  - intros Hlo Hhi. now rewrite str_slice_cover.
Qed.

(** X12: [get_chromosome_record] of the eccLib adapter looks nothing up:
    on a reader loaded once it returns a view even for an id that is not
    in the file, and the [KeyError] comes only when the view is sliced,
    indexed or measured. *)
Theorem record_of_missing_chromosome (fasta_path : string) (index_path : option string)
        (data : gmap string EccRecord) (chr_id : string)
        (start stop step : option Z) (i : Z) :
  parseFASTA fasta_path = Ok data ->
  data !! chr_id = None ->
  let reader := (EccLibFASTAReader.load EccLibFASTAReader.__init__
                   fasta_path index_path).1.2 in
  let view := EccLibFASTAReader_get_chromosome_record reader chr_id in
  _chr_id view = chr_id /\
  __getitem__ view (KeySlice start stop step) reader = (Raise (Exn KeyError chr_id), reader) /\
  __getitem__ view (KeyInt i) reader = (Raise (Exn KeyError chr_id), reader) /\
  __len__ view reader = (Raise (Exn KeyError chr_id), reader) /\
  __str__ view reader = (Raise (Exn KeyError chr_id), reader).
Proof.
  intros Hparse Hnone reader view.
  pose proof (loaded_once_missing fasta_path index_path data chr_id Hparse Hnone)
    as Hmiss.
  fold reader in Hmiss.
  unfold view, __str__, __len__. simpl.
  rewrite !get_sequence_eq, get_chromosome_length_eq, Hmiss. auto.
Qed.

End record_view_more.

(* ===================================================================== *)
(** * More on the probe and the factory                                   *)
(* ===================================================================== *)

(** X13: when [import eccLib] succeeds, module initialisation always
    completes, with [ECCLIB_AVAILABLE] true and [ECCLIB_WORKING] true
    exactly when [hasattr] answered [True] for both [parseFASTA] and
    [parseGTF] (an exception raised by [hasattr] never escapes); when the
    import raises an [ImportError], it completes with both globals false. *)
Theorem probe_globals_characterised :
  (forall m : EccLibModule,
      exists g evs,
        module_init (Ok m) = (Ok g, evs) /\
        ECCLIB_AVAILABLE g = true /\
        (ECCLIB_WORKING g = true <->
         hasattr m "parseFASTA" = Ok true /\ hasattr m "parseGTF" = Ok true)) /\
  (forall e : exn,
      is_ImportError e = true ->
      module_init (Raise e)
        = (Ok {| ECCLIB_AVAILABLE := false; ECCLIB_WORKING := false |},
           [ImportModule "eccLib"])).
Proof.
  split.
  - intros m. unfold module_init, sanity_check. do 2 eexists.
    split; [reflexivity|]. split.
    + destruct (hasattr m "parseFASTA") as [[|]|];
        [destruct (hasattr m "parseGTF") as [[|]|] | |]; reflexivity.
    + destruct (hasattr m "parseFASTA") as [[|]|];
        [destruct (hasattr m "parseGTF") as [[|]|] | |]; simpl;
        split; try discriminate; auto; intros [? ?]; discriminate.
  - intros e He. unfold module_init. now rewrite He.
Qed.

Section factory_more.
Context {Py : PyfaidxEngine} {Ecc : EccLibEngine}.

(** X14: probe and factory together.  With the globals that module
    initialisation leaves on a platform, [get_fasta_reader(True)] returns
    the eccLib reader with one info line when the import succeeded and
    both entry points are there; the pyfaidx reader with the single
    warning "installed but not working" when the import succeeded
    otherwise; and the pyfaidx reader with the single warning "not
    installed" when the import raised [ImportError]. *)
Theorem selection_on_platform (p : Platform) (g : ProbeState) (evs : list event) :
  module_init p = (Ok g, evs) ->
  get_fasta_reader g true =
    match p with
    | Ok m =>
        match sanity_check m with
        | Ok true =>
            (IsEccLibFASTAReader EccLibFASTAReader.__init__,
             [LogInfo "Using eccLib for FASTA access"])
        | _ =>
            (IsPyfaidxReader PyfaidxReader.__init__,
             [LogWarning "eccLib is installed but not working correctly on this platform, falling back to pyfaidx"])
        end
    | Raise _ =>
        (IsPyfaidxReader PyfaidxReader.__init__,
         [LogWarning "eccLib requested but not installed, falling back to pyfaidx"])
    end.
Proof.
  unfold module_init. destruct p as [m|e].
  - intros H. injection H as <- _.
    destruct (sanity_check m) as [[|]|]; reflexivity.
  - destruct (is_ImportError e); intros H; [|discriminate].
    injection H as <- _. reflexivity.
Qed.

(** X16: when eccLib is available and working and
    [create_fasta_reader(path, index, True)] returns, what it returns is
    an eccLib reader holding what [parseFASTA(path)] returned; on it
    [get_chromosome_ids] lists the ids of that data, and for every
    chromosome of the data and all bounds [get_sequence] is the Python
    slice of the decoded record and [get_chromosome_length] its length,
    neither changing the reader. *)
Theorem create_fasta_reader_ecclib (g : ProbeState) (fasta_path : string)
        (index_path : option string) (reader : FASTAReaderInterface)
        (evs : list event) :
  is_ecclib_available g = true ->
  create_fasta_reader g fasta_path index_path true = (Ok reader, evs) ->
  exists r data,
    reader = IsEccLibFASTAReader r /\
    parseFASTA fasta_path = Ok data /\
    EccLibFASTAReader.fasta_data r = Some data /\
    reader_get_chromosome_ids reader = Ok (dict_keys data) /\
    forall (chr_id : string) (rec : EccRecord) (start end_ : option Z),
      data !! chr_id = Some rec ->
      (exists out,
          reader_get_sequence reader chr_id start end_ = (Ok out, reader) /\
          python_slice_of (dump rec) start end_ out /\
          out = str_slice (dump rec) start end_) /\
      reader_get_chromosome_length reader chr_id = (Ok (len (dump rec)), reader).
Proof.
  intros Hprobe Hcreate.
  unfold create_fasta_reader, get_fasta_reader in Hcreate.
  rewrite Hprobe in Hcreate. simpl in Hcreate.
  destruct (parseFASTA fasta_path) as [data|e] eqn:Hparse.
  - destruct (load_parsed EccLibFASTAReader.__init__ fasta_path index_path data Hparse)
      as (cache' & Hload & Hlook).
    rewrite Hload in Hcreate. injection Hcreate as <- _.
    set (r := {| EccLibFASTAReader.fasta_data := Some data;
                 EccLibFASTAReader._sequence_cache := cache' |}) in *.
    assert (Hreach : EccLibFASTAReader.reachable r).
    { apply (EccLibFASTAReader.reachable_step EccLibFASTAReader.__init__);
        [apply EccLibFASTAReader.reachable_init|].
      pose proof (EccLibFASTAReader.step_load EccLibFASTAReader.__init__
                    fasta_path index_path) as Hstep.
      now rewrite Hload in Hstep. }
    exists r, data. repeat split.
    + exists (str_slice (dump rec) start end_). simpl.
      rewrite (get_sequence_loaded r data chr_id rec) by auto.
      split; [reflexivity|]. split; [apply str_slice_python | reflexivity].
    + simpl. rewrite get_chromosome_length_get_sequence.
      rewrite (get_sequence_loaded r data chr_id rec) by auto.
      simpl. unfold result_map. simpl. now rewrite str_slice_full.
  - rewrite (load_parse_failed EccLibFASTAReader.__init__ fasta_path index_path e Hparse)
      in Hcreate. discriminate.
Qed.

(** X17: when the flag is off, or eccLib is not both available and
    working, and pyfaidx opens the file, [create_fasta_reader] returns a
    pyfaidx reader holding the opened file; [reader[chr_id]] is then
    pyfaidx's own record, [get_sequence] is that record's slice with the
    bounds passed on as given, and [get_chromosome_length] its length. *)
Theorem create_fasta_reader_pyfaidx (g : ProbeState) (fasta_path : string)
        (index_path : option string) (use_ecclib : bool) (f : FastaFile)
        (chr_id : string) (frec : FastaRecord) (start end_ : option Z) :
  use_ecclib && is_ecclib_available g = false ->
  Fasta fasta_path (PyfaidxReader.indexname index_path) = Ok f ->
  fasta_getitem f chr_id = Ok frec ->
  exists r,
    (create_fasta_reader g fasta_path index_path use_ecclib).1
      = Ok (IsPyfaidxReader r) /\
    PyfaidxReader.fasta r = Some f /\
    reader_getitem (IsPyfaidxReader r) chr_id = Ok (NativeRecord frec) /\
    reader_get_sequence (IsPyfaidxReader r) chr_id start end_
      = (record_slice frec start end_, IsPyfaidxReader r) /\
    reader_get_chromosome_length (IsPyfaidxReader r) chr_id
      = (Ok (record_len frec), IsPyfaidxReader r).
Proof.
  intros Hsel Hopen Hrec.
  exists {| PyfaidxReader.fasta := Some f |}.
  assert (Hload : PyfaidxReader.load PyfaidxReader.__init__ fasta_path index_path
                  = (Ok tt, {| PyfaidxReader.fasta := Some f |},
                     [CallFasta fasta_path (PyfaidxReader.indexname index_path)])).
  { unfold PyfaidxReader.load, PyfaidxReader.indexname in *.
    destruct (PyfaidxReader.truthy index_path); now rewrite Hopen. }
  split; [|split; [reflexivity|split; [|split]]].
  - unfold create_fasta_reader, get_fasta_reader.
    destruct use_ecclib, (is_ecclib_available g), (ECCLIB_AVAILABLE g);
      try discriminate; simpl; now rewrite Hload.
  - unfold reader_getitem, PyfaidxReader.get_chromosome_record,
      PyfaidxReader.fasta_record, result_map. simpl. now rewrite Hrec.
  - simpl. rewrite py_get_sequence_eq. unfold PyfaidxReader.fasta_record. simpl.
    now rewrite Hrec.
  - unfold reader_get_chromosome_length, PyfaidxReader.get_chromosome_length,
      PyfaidxReader.fasta_record. simpl. now rewrite Hrec.
Qed.


End factory_more.

(* ===================================================================== *)
(** * The further properties on the reference files                       *)
(* ===================================================================== *)

Lemma toy_first_loaded_reachable : EccLibFASTAReader.reachable toy_first_loaded.
Proof.
  apply (EccLibFASTAReader.reachable_step EccLibFASTAReader.__init__).
  - apply EccLibFASTAReader.reachable_init.
  - apply (EccLibFASTAReader.step_load EccLibFASTAReader.__init__ "first.fa" None).
Qed.

Lemma lookups_read_only_witness :
  (@EccLibFASTAReader.get_sequence toy_ecclib toy_loaded "chr1" (Some 1) (Some 3)).2
    = toy_loaded /\
  (@EccLibFASTAReader.get_chromosome_length toy_ecclib toy_loaded "chr1").2 = toy_loaded.
Proof.
  destruct (@lookups_read_only toy_ecclib) as [Hload Hkeep].
  apply (Hkeep toy_loaded "chr1"%string (Some 1) (Some 3)).
  apply (Hload EccLibFASTAReader.__init__ "ref.fa"%string None).
  reflexivity.
Defined.

Lemma get_sequence_prefix_suffix_witness :
  exists prefix suffix,
    (@EccLibFASTAReader.get_sequence toy_ecclib toy_loaded "chr2" None (Some (-2))).1
      = Ok prefix /\
    (@EccLibFASTAReader.get_sequence toy_ecclib toy_loaded "chr2" (Some (-2)) None).1
      = Ok suffix /\
    prefix +:+ suffix = "GGCCA"%string /\
    (@EccLibFASTAReader.get_sequence toy_ecclib toy_loaded "chr2" None None).1
      = Ok (prefix +:+ suffix).
Proof.
  apply (@get_sequence_prefix_suffix toy_ecclib toy_loaded ref_fa
           "chr2"%string "GGCCA"%string (-2)).
  - exact toy_loaded_reachable.
  - vm_compute; reflexivity.
  - vm_compute; reflexivity.
Defined.

Lemma get_sequence_length_witness :
  exists seq,
    (@EccLibFASTAReader.get_sequence toy_ecclib toy_loaded "chr2" (Some 3) (Some 100)).1
      = Ok seq /\
    len seq = Z.max 0 (slice_hi (len "GGCCA") (Some 100) - slice_lo (len "GGCCA") (Some 3)) /\
    0 <= len seq <= len "GGCCA".
Proof.
  apply (@get_sequence_length toy_ecclib toy_loaded ref_fa
           "chr2"%string "GGCCA"%string (Some 3) (Some 100)).
  - exact toy_loaded_reachable.
  - vm_compute; reflexivity.
  - vm_compute; reflexivity.
Defined.

Lemma get_sequence_negative_bounds_witness :
  @EccLibFASTAReader.get_sequence toy_ecclib toy_loaded "chr2" (Some (-2)) None
    = @EccLibFASTAReader.get_sequence toy_ecclib toy_loaded "chr2" (Some (-2 + len "GGCCA")) None /\
  @EccLibFASTAReader.get_sequence toy_ecclib toy_loaded "chr2" None (Some (-2))
    = @EccLibFASTAReader.get_sequence toy_ecclib toy_loaded "chr2" None (Some (-2 + len "GGCCA")).
Proof.
  apply (@get_sequence_negative_bounds toy_ecclib toy_loaded ref_fa
           "chr2"%string "GGCCA"%string (-2) None).
  - exact toy_loaded_reachable.
  - vm_compute; reflexivity.
  - vm_compute; reflexivity.
  - vm_compute; split; [discriminate | reflexivity].
Defined.

Lemma lookups_keep_data_and_entries_witness :
  EccLibFASTAReader.fasta_data
    (@EccLibFASTAReader.get_sequence toy_ecclib toy_loaded "chr1" None None).2
    = EccLibFASTAReader.fasta_data toy_loaded /\
  EccLibFASTAReader._sequence_cache
    (@EccLibFASTAReader.get_sequence toy_ecclib toy_loaded "chr1" None None).2
    !! "chr2"%string = Some "GGCCA"%string /\
  EccLibFASTAReader.fasta_data
    (@EccLibFASTAReader.get_chromosome_length toy_ecclib toy_loaded "chr1").2
    = EccLibFASTAReader.fasta_data toy_loaded /\
  EccLibFASTAReader._sequence_cache
    (@EccLibFASTAReader.get_chromosome_length toy_ecclib toy_loaded "chr1").2
    !! "chr2"%string = Some "GGCCA"%string.
Proof.
  apply (@lookups_keep_data_and_entries toy_ecclib toy_loaded
           "chr1"%string None None "chr2"%string "GGCCA"%string).
  vm_compute; reflexivity.
Defined.

Lemma loaded_once_ids_and_lookups_witness :
  @EccLibFASTAReader.get_chromosome_ids toy_ecclib toy_loaded = Ok (dict_keys ref_fa) /\
  (exists seq,
      (@EccLibFASTAReader.get_sequence toy_ecclib toy_loaded "chr1" None None).1 = Ok seq).
Proof.
  destruct (@loaded_once_ids_and_lookups toy_ecclib "ref.fa"%string None ref_fa
              "chr1"%string None None eq_refl) as (Hids & _ & Hiff & _).
  split; [exact Hids|].
  apply Hiff. vm_compute. left.
Defined.

Lemma stale_entry_survives_reload_witness :
  let self' := (@EccLibFASTAReader.load toy_two_files toy_first_loaded
                  "second.fa" None).1.2 in
  @EccLibFASTAReader.get_sequence toy_two_files self' "chrA" (Some 2) (Some 6)
    = (Ok (str_slice "AAAATTTT" (Some 2) (Some 6)), self') /\
  @EccLibFASTAReader.get_chromosome_length toy_two_files self' "chrA"
    = (Ok (len "AAAATTTT"), self') /\
  @EccLibFASTAReader.get_chromosome_ids toy_two_files self' = Ok (dict_keys second_fa) /\
  "chrA"%string ∉ dict_keys second_fa.
Proof.
  apply (@stale_entry_survives_reload toy_two_files toy_first_loaded
           "second.fa"%string None second_fa "chrA"%string "AAAATTTT"%string
           (Some 2) (Some 6)).
  - reflexivity.
  - vm_compute; reflexivity.
  - vm_compute; reflexivity.
Defined.

Lemma record_index_is_unit_slice_witness :
  @EccLibChromosomeRecord.__getitem__ toy_ecclib
     (EccLibChromosomeRecord.__init__ "chr1") (KeyInt 3) toy_loaded
  = @EccLibChromosomeRecord.__getitem__ toy_ecclib
      (EccLibChromosomeRecord.__init__ "chr1") (KeySlice (Some 3) (Some (3 + 1)) None)
      toy_loaded.
Proof.
  apply (@record_index_is_unit_slice toy_ecclib (EccLibChromosomeRecord.__init__ "chr1")
           toy_loaded ref_fa "ACGTACGTAC"%string 3 None).
  - exact toy_loaded_reachable.
  - vm_compute; reflexivity.
  - vm_compute; reflexivity.
  - vm_compute; split; [discriminate | reflexivity].
Defined.

Lemma record_index_range_witness :
  (exists c,
      String.get (Z.to_nat ((-1) mod len "GGCCA")) "GGCCA" = Some c /\
      @EccLibChromosomeRecord.__getitem__ toy_ecclib
         (EccLibChromosomeRecord.__init__ "chr2") (KeyInt (-1)) toy_loaded
      = (Ok (String c EmptyString), toy_loaded)) /\
  @EccLibChromosomeRecord.__getitem__ toy_ecclib
     (EccLibChromosomeRecord.__init__ "chr2") (KeyInt 5) toy_loaded
  = (Raise (Exn IndexError "string index out of range"), toy_loaded).
Proof.
  split.
  - apply (@record_index_range toy_ecclib (EccLibChromosomeRecord.__init__ "chr2")
             toy_loaded ref_fa "GGCCA"%string (-1)).
    + exact toy_loaded_reachable.
    + vm_compute; reflexivity.
    + vm_compute; reflexivity.
    + vm_compute; split; [discriminate | reflexivity].
  - apply (@record_index_range toy_ecclib (EccLibChromosomeRecord.__init__ "chr2")
             toy_loaded ref_fa "GGCCA"%string 5).
    + exact toy_loaded_reachable.
    + vm_compute; reflexivity.
    + vm_compute; reflexivity.
    + right. vm_compute; discriminate.
Defined.

Lemma record_str_len_cover_witness :
  @EccLibChromosomeRecord.__str__ toy_ecclib
     (EccLibChromosomeRecord.__init__ "chr2") toy_loaded = (Ok "GGCCA"%string, toy_loaded) /\
  @EccLibChromosomeRecord.__len__ toy_ecclib
     (EccLibChromosomeRecord.__init__ "chr2") toy_loaded = (Ok (len "GGCCA"), toy_loaded).
Proof.
  destruct (@record_str_len_cover toy_ecclib (EccLibChromosomeRecord.__init__ "chr2")
              toy_loaded ref_fa "GGCCA"%string None None None) as (Hstr & Hlen & _).
  - exact toy_loaded_reachable.
  - vm_compute; reflexivity.
  - vm_compute; reflexivity.
  - split; [exact Hstr | exact Hlen].
Defined.

Lemma record_of_missing_chromosome_witness :
  @EccLibChromosomeRecord.__getitem__ toy_ecclib
     (@EccLibFASTAReader_get_chromosome_record toy_ecclib toy_loaded "chrX")
     (KeySlice (Some 0) (Some 3) None) toy_loaded
  = (Raise (Exn KeyError "chrX"), toy_loaded).
Proof.
  destruct (@record_of_missing_chromosome toy_ecclib "ref.fa"%string None ref_fa
              "chrX"%string (Some 0) (Some 3) None 0) as (_ & Hslice & _).
  - reflexivity.
  - vm_compute; reflexivity.
  - exact Hslice.
Defined.

Lemma probe_globals_characterised_witness :
  module_init bare_platform
    = (Ok {| ECCLIB_AVAILABLE := false; ECCLIB_WORKING := false |},
       [ImportModule "eccLib"]).
Proof.
  apply (proj2 probe_globals_characterised
           (Exn ModuleNotFoundError "No module named 'eccLib'")).
  reflexivity.
Defined.

Lemma selection_on_platform_witness :
  @get_fasta_reader toy_pyfaidx toy_ecclib
     {| ECCLIB_AVAILABLE := true; ECCLIB_WORKING := false |} true
  = (IsPyfaidxReader PyfaidxReader.__init__,
     [LogWarning "eccLib is installed but not working correctly on this platform, falling back to pyfaidx"]).
Proof.
  apply (@selection_on_platform toy_pyfaidx toy_ecclib partial_platform
           {| ECCLIB_AVAILABLE := true; ECCLIB_WORKING := false |}
           [ImportModule "eccLib"; Hasattr "parseFASTA"; Hasattr "parseGTF"]).
  reflexivity.
Defined.

Lemma create_fasta_reader_ecclib_witness :
  exists out,
    @reader_get_sequence toy_pyfaidx toy_ecclib
       (@IsEccLibFASTAReader toy_pyfaidx toy_ecclib toy_loaded) "chr1" (Some 4) None
      = (Ok out, @IsEccLibFASTAReader toy_pyfaidx toy_ecclib toy_loaded) /\
    python_slice_of "ACGTACGTAC" (Some 4) None out /\
    out = "ACGTAC"%string /\
    @reader_get_chromosome_length toy_pyfaidx toy_ecclib
       (@IsEccLibFASTAReader toy_pyfaidx toy_ecclib toy_loaded) "chr1"
      = (Ok 10, @IsEccLibFASTAReader toy_pyfaidx toy_ecclib toy_loaded).
Proof.
  destruct (@create_fasta_reader_ecclib toy_pyfaidx toy_ecclib
              {| ECCLIB_AVAILABLE := true; ECCLIB_WORKING := true |}
              "ref.fa"%string (Some "ref.fa.fai"%string)
              (@IsEccLibFASTAReader toy_pyfaidx toy_ecclib toy_loaded)
              [LogInfo "Using eccLib for FASTA access"; CallParseFASTA "ref.fa"])
    as (r & data & Hreader & Hparse & Hdata & Hids & Hlook).
  - reflexivity.
  - vm_compute; reflexivity.
  - injection Hparse as <-.
    destruct (Hlook "chr1"%string "ACGTACGTAC"%string (Some 4) None)
      as [(out & Hget & Hslice & Hout) Hlen]; [vm_compute; reflexivity|].
    exists out. split; [exact Hget|]. split; [exact Hslice|].
    split; [exact Hout | exact Hlen].
Defined.

Lemma create_fasta_reader_pyfaidx_witness :
  exists r,
    (@create_fasta_reader toy_pyfaidx toy_ecclib
       {| ECCLIB_AVAILABLE := false; ECCLIB_WORKING := false |} "ref.fa" None true).1
      = Ok (@IsPyfaidxReader toy_pyfaidx toy_ecclib r) /\
    PyfaidxReader.fasta r = Some ref_fa /\
    @reader_getitem toy_pyfaidx toy_ecclib (@IsPyfaidxReader toy_pyfaidx toy_ecclib r) "chr1" = Ok (@NativeRecord toy_pyfaidx "ACGTACGTAC"%string) /\
    @reader_get_sequence toy_pyfaidx toy_ecclib (@IsPyfaidxReader toy_pyfaidx toy_ecclib r) "chr1" (Some 4) None
      = (@record_slice toy_pyfaidx "ACGTACGTAC"%string (Some 4) None, @IsPyfaidxReader toy_pyfaidx toy_ecclib r) /\
    @reader_get_chromosome_length toy_pyfaidx toy_ecclib (@IsPyfaidxReader toy_pyfaidx toy_ecclib r) "chr1"
      = (Ok (@record_len toy_pyfaidx "ACGTACGTAC"%string), @IsPyfaidxReader toy_pyfaidx toy_ecclib r).
Proof.
  apply (@create_fasta_reader_pyfaidx toy_pyfaidx toy_ecclib
           {| ECCLIB_AVAILABLE := false; ECCLIB_WORKING := false |}
           "ref.fa"%string None true ref_fa "chr1"%string "ACGTACGTAC"%string
           (Some 4) None).
  - reflexivity.
  - reflexivity.
  - vm_compute; reflexivity.
Defined.

